(** * go-shheissee: the monitoring and mitigation engine

    A shallow embedding of [pkg/monitors/monitors.go] (tool invoker,
    samplers, detection heuristics, findings log) and of the [detector]
    package's [Blocker], with the properties of their specification.

    Conventions of the embedding.
    - A Go [string] is a byte sequence: Rocq's [string].  The functions of
      Go's [strings] package are written out below under their Go names.
      Go's [unicode.IsSpace] and [strings.ToLower] also know code points
      outside ASCII (encoded on several bytes); the embedding covers the
      ASCII range, which is what the tools parsed here print.
    - A Go [error] is [option string]: [None] is [nil], [Some msg] is an
      error whose [Error()] text is [msg].
    - A Go [map] is a [gmap]; ranging over it visits the keys in an order
      chosen by the runtime (see [rangeKeys]).
    - The host (external commands, [exec.LookPath], the clock, the order in
      which a map is ranged over) is a script of answers consumed one per
      interaction (see [World]); a command run twice may be answered
      differently each time.
    - A critical section [mu.Lock(); ...; mu.Unlock()] is [locked mu ...];
      the values of the package variables at each release are recorded, in
      order, as what other tasks can find (see [Machine]).
    - [log.Printf], [logToFile] and [time.Sleep] do not touch the state that
      the properties are about and are left out, and so is the radio
      sampler [MonitorRadio], which no property below involves. *)

From Stdlib Require Import ZArith Ascii String List Lia Permutation.
From stdpp Require Import base tactics option list sorting gmap strings pretty fin_maps.

Local Open Scope string_scope.
Local Open Scope list_scope.
Local Open Scope nat_scope.

(** ** Go's [strings] package (ASCII) *)

Module GoStrings.

Definition TAB : string := String "009"%char EmptyString.
Definition NL : string := String "010"%char EmptyString.

(** [unicode.IsSpace] on one byte: tab, newline, vertical tab, form feed,
    carriage return, space. *)
Definition isSpace (c : ascii) : bool :=
  let n := nat_of_ascii c in
  ((9 <=? n) && (n <=? 13)) || (n =? 32).

Definition snoc (s : string) (c : ascii) : string := s +:+ String c EmptyString.

Definition isEmpty (s : string) : bool :=
  match s with EmptyString => true | String _ _ => false end.

Fixpoint HasPrefix (s prefix : string) : bool :=
  match prefix, s with
  | EmptyString, _ => true
  | String _ _, EmptyString => false
  | String p ps, String c cs => Ascii.eqb p c && HasPrefix cs ps
  end.

Fixpoint Contains (s substr : string) : bool :=
  HasPrefix s substr ||
  match s with
  | EmptyString => false
  | String _ s' => Contains s' substr
  end.

Definition HasSuffix (s suffix : string) : bool :=
  HasPrefix (String.rev s) (String.rev suffix).

Definition TrimSuffix (s suffix : string) : string :=
  if HasSuffix s suffix
  then String.substring 0 (String.length s - String.length suffix) s
  else s.

Fixpoint TrimLeftSpace (s : string) : string :=
  match s with
  | EmptyString => EmptyString
  | String c s' => if isSpace c then TrimLeftSpace s' else s
  end.

Fixpoint TrimRightSpace (s : string) : string :=
  match s with
  | EmptyString => EmptyString
  | String c s' =>
      let r := TrimRightSpace s' in
      if isSpace c && isEmpty r then EmptyString else String c r
  end.

Definition TrimSpace (s : string) : string := TrimRightSpace (TrimLeftSpace s).

(** [strings.Fields]: the maximal runs of non-space bytes. *)
Fixpoint fieldsFrom (cur s : string) : list string :=
  match s with
  | EmptyString => if isEmpty cur then [] else [cur]
  | String c s' =>
      if isSpace c
      then (if isEmpty cur then fieldsFrom EmptyString s'
            else cur :: fieldsFrom EmptyString s')
      else fieldsFrom (snoc cur c) s'
  end.

Definition Fields (s : string) : list string := fieldsFrom EmptyString s.

(** The splitting loop shared by [Split] and [SplitN], for a separator that
    is not empty (every separator of the program is a literal): [cuts] is
    the number of cuts still allowed, [skip] the number of bytes of the
    separator just matched that remain to be passed over, [cur] the piece
    being built. *)
Fixpoint genSplit (sep : string) (cuts skip : nat) (cur s : string) : list string :=
  match s with
  | EmptyString => [cur]
  | String c s' =>
      match skip with
      | S k => genSplit sep cuts k cur s'
      | O =>
          match cuts with
          | O => genSplit sep O O (snoc cur c) s'
          | S cuts' =>
              if HasPrefix s sep
              then cur :: genSplit sep cuts' (String.length sep - 1) EmptyString s'
              else genSplit sep cuts O (snoc cur c) s'
          end
      end
  end.

Definition Split (s sep : string) : list string :=
  genSplit sep (String.length s) 0 EmptyString s.

(** [strings.SplitN] for [n > 0]: at most [n] pieces, the last one being the
    unsplit remainder; for [n = 0] the result is [nil]. *)
Definition SplitN (s sep : string) (n : nat) : list string :=
  match n with
  | O => []
  | S k => genSplit sep k 0 EmptyString s
  end.

Fixpoint Join (elems : list string) (sep : string) : string :=
  match elems with
  | [] => EmptyString
  | [e] => e
  | e :: rest => e +:+ sep +:+ Join rest sep
  end.

Definition lowerByte (c : ascii) : ascii :=
  let n := nat_of_ascii c in
  if (65 <=? n) && (n <=? 90) then ascii_of_nat (n + 32) else c.

Fixpoint ToLower (s : string) : string :=
  match s with
  | EmptyString => EmptyString
  | String c s' => String (lowerByte c) (ToLower s')
  end.

(** [strconv.Atoi] on a 64-bit platform, with the error dropped as the
    program does ([pwr, _ := strconv.Atoi(..)]): an optional sign and
    decimal digits; [0] on a syntax error, the nearest bound on overflow. *)
Definition digitVal (c : ascii) : option Z :=
  let n := nat_of_ascii c in
  if (48 <=? n) && (n <=? 57) then Some (Z.of_nat (n - 48)) else None.

Fixpoint digitsVal (acc : Z) (s : string) : option Z :=
  match s with
  | EmptyString => Some acc
  | String c s' =>
      match digitVal c with
      | Some d => digitsVal (10 * acc + d) s'
      | None => None
      end
  end.

Definition maxInt : Z := 9223372036854775807.
Definition minInt : Z := -9223372036854775808.

Definition clampInt (z : Z) : Z :=
  if (maxInt <? z)%Z then maxInt else if (z <? minInt)%Z then minInt else z.

Definition Atoi (s : string) : Z :=
  let '(neg, body) :=
    match s with
    | String "-"%char r => (true, r)
    | String "+"%char r => (false, r)
    | _ => (false, s)
    end in
  if isEmpty body then 0%Z
  else match digitsVal 0 body with
       | Some v => clampInt (if neg then (- v)%Z else v)
       | None => 0%Z
       end.

(** [%d] of [fmt.Sprintf] for a length. *)
Definition itoa (n : nat) : string := pretty n.

End GoStrings.

Import GoStrings.

(** ** The host and the state monad *)

Definition Time : Type := Z.

(** What one finished process leaves behind: its standard output, its
    standard output and standard error interleaved, and the error that
    [exec.Cmd] reports ([None] when it exited with status 0). *)
Record ProcResult : Type := {
  stdout : string;
  combined : string;
  exitErr : option string;
}.

(** One reading of [time.Now()], with its two renderings used by the
    program: [Format("2006-01-02 15:04:05")] and [Format("15:04:05")]. *)
Record Clock : Type := {
  instant : Time;
  dateTime : string;
  hms : string;
}.

(** What the host answers at one moment.  [rank] fixes the order in which a
    map is ranged over at that moment: keys of smaller rank come first. *)
Record Oracle : Type := {
  lookPath : string -> option string;
  process : list string -> ProcResult;
  clock : Clock;
  rank : string -> nat;
}.

(** The host is a script of answers, one per interaction; [ticks] counts the
    interactions so far and [spawned] lists the command lines started. *)
Record World : Type := {
  script : nat -> Oracle;
  ticks : nat;
  spawned : list (list string);
}.

Definition St (S A : Type) : Type := S -> A * S.

Definition ret {S A : Type} (a : A) : St S A := fun s => (a, s).

Definition bind {S A B : Type} (m : St S A) (k : A -> St S B) : St S B :=
  fun s => let (a, s') := m s in k a s'.

Notation "x <- m ;; k" := (bind m (fun x => k))
  (at level 100, m at next level, right associativity).
Notation "m ;; k" := (bind m (fun _ => k))
  (at level 100, right associativity).

(** [for _, x := range xs { acc = body(acc, x) }] *)
Fixpoint forEach {S A B : Type} (xs : list A) (acc : B) (body : B -> A -> St S B) : St S B :=
  match xs with
  | [] => ret acc
  | x :: rest => acc' <- body acc x ;; forEach rest acc' body
  end.

Definition answer : St World Oracle := fun w =>
  (script w (ticks w),
   {| script := script w; ticks := S (ticks w); spawned := spawned w |}).

(** [exec.LookPath(file)] *)
Definition LookPath (file : string) : St World (option string) :=
  o <- answer ;; ret (lookPath o file).

Definition start (argv : list string) : St World ProcResult := fun w =>
  (process (script w (ticks w)) argv,
   {| script := script w; ticks := S (ticks w); spawned := spawned w ++ [argv] |}).

(** [cmd.CombinedOutput()], [cmd.Output()] and [cmd.Run()] for a command
    with [cmd.Args = argv]. *)
Definition CombinedOutput (argv : list string) : St World (string * option string) :=
  r <- start argv ;; ret (combined r, exitErr r).

Definition Output (argv : list string) : St World (string * option string) :=
  r <- start argv ;; ret (stdout r, exitErr r).

Definition Run (argv : list string) : St World (option string) :=
  r <- start argv ;; ret (exitErr r).

(** [time.Now()] *)
Definition Now : St World Clock := o <- answer ;; ret (clock o).

Definition rankLe (o : Oracle) (a b : string) : Prop := rank o a <= rank o b.

Local Instance rankLe_dec o a b : Decision (rankLe o a b).
Proof. unfold rankLe. apply _. Defined.

(** [for k := range m]: the keys of [m], each once, in the order the runtime
    picks this time. *)
Definition rangeKeys {V : Type} (m : gmap string V) : St World (list string) :=
  o <- answer ;; ret (merge_sort (rankLe o) (map fst (map_to_list m))).

(** ** The data model ([monitors.go], lines 63-133) *)

Record WifiAP : Type := {
  BSSID : string;
  PWR : Z;
  Beacons : Z;
  ENC : string;
  ESSID : string;
}.

Record WifiClient : Type := {
  MAC : string;
  APMAC : string;
  ClientPWR : Z;
  Lost : Z;
}.

Record BluetoothDevice : Type := {
  Address : string;
  Name : string;
}.

Record BLEDevice : Type := {
  BLEAddress : string;
  Data : string;
  RSSI : Z;
}.

Record Attack : Type := {
  Type_ : string;
  Severity : string;
  Description : string;
  Target : string;
  Timestamp : Time;
}.

Record NetworkInfo : Type := {
  Online : bool;
  AvgLatency : string;
}.

Record ServiceStatus : Type := {
  ServiceName : string;
  Status : string;
  LastUpdate : string;
  ErrorMsg : string;
  LogEntries : list string;
}.

(** The package-level variables. *)
Record Globals : Type := {
  WifiAPs : list WifiAP;
  WifiClients : list WifiClient;
  BtDevices : list BluetoothDevice;
  BleDevices : list BLEDevice;
  NetworkInfoVar : NetworkInfo;
  ServiceStatuses : gmap string ServiceStatus;
  Attacks : list Attack;
}.

(** The zero values the package starts with. *)
Definition zeroGlobals : Globals := {|
  WifiAPs := []; WifiClients := []; BtDevices := []; BleDevices := [];
  NetworkInfoVar := {| Online := false; AvgLatency := EmptyString |};
  ServiceStatuses := ∅; Attacks := [];
|}.

Inductive Mutex : Type := WifiMu | BtMu | BleMu | RadioMu | NetMu | StatusMu | AttackMu.

(** A running process: the package variables, the host, and the values the
    package variables had each time a mutex was released, in order: these,
    with the value before the first critical section, are the states a task
    that takes the (read) lock between two critical sections can find. *)
Record Machine : Type := {
  globals : Globals;
  world : World;
  released : list (Mutex * Globals);
}.

Definition Proc : Type -> Type := St Machine.

Definition host {A : Type} (m : St World A) : Proc A := fun s =>
  let (a, w) := m (world s) in
  (a, {| globals := globals s; world := w; released := released s |}).

Definition getG : Proc Globals := fun s => (globals s, s).

Definition modifyG (f : Globals -> Globals) : Proc unit := fun s =>
  (tt, {| globals := f (globals s); world := world s; released := released s |}).

Definition unlock (mu : Mutex) : Proc unit := fun s =>
  (tt, {| globals := globals s; world := world s;
          released := released s ++ [(mu, globals s)] |}).

(** [mu.Lock(); body; mu.Unlock()] *)
Definition locked {A : Type} (mu : Mutex) (body : Proc A) : Proc A :=
  a <- body ;; unlock mu ;; ret a.

Definition setWifi (aps : list WifiAP) (cl : list WifiClient) (g : Globals) : Globals :=
  {| WifiAPs := aps; WifiClients := cl; BtDevices := BtDevices g;
     BleDevices := BleDevices g; NetworkInfoVar := NetworkInfoVar g;
     ServiceStatuses := ServiceStatuses g; Attacks := Attacks g |}.

Definition setBtDevices (v : list BluetoothDevice) (g : Globals) : Globals :=
  {| WifiAPs := WifiAPs g; WifiClients := WifiClients g; BtDevices := v;
     BleDevices := BleDevices g; NetworkInfoVar := NetworkInfoVar g;
     ServiceStatuses := ServiceStatuses g; Attacks := Attacks g |}.

Definition setBleDevices (v : list BLEDevice) (g : Globals) : Globals :=
  {| WifiAPs := WifiAPs g; WifiClients := WifiClients g; BtDevices := BtDevices g;
     BleDevices := v; NetworkInfoVar := NetworkInfoVar g;
     ServiceStatuses := ServiceStatuses g; Attacks := Attacks g |}.

Definition setNetworkInfo (v : NetworkInfo) (g : Globals) : Globals :=
  {| WifiAPs := WifiAPs g; WifiClients := WifiClients g; BtDevices := BtDevices g;
     BleDevices := BleDevices g; NetworkInfoVar := v;
     ServiceStatuses := ServiceStatuses g; Attacks := Attacks g |}.

Definition setServiceStatuses (v : gmap string ServiceStatus) (g : Globals) : Globals :=
  {| WifiAPs := WifiAPs g; WifiClients := WifiClients g; BtDevices := BtDevices g;
     BleDevices := BleDevices g; NetworkInfoVar := NetworkInfoVar g;
     ServiceStatuses := v; Attacks := Attacks g |}.

Definition setAttacks (v : list Attack) (g : Globals) : Globals :=
  {| WifiAPs := WifiAPs g; WifiClients := WifiClients g; BtDevices := BtDevices g;
     BleDevices := BleDevices g; NetworkInfoVar := NetworkInfoVar g;
     ServiceStatuses := ServiceStatuses g; Attacks := v |}.

(** ** Tool invoker ([monitors.go], lines 15-61) *)

Definition sudoIndicators : list string :=
  [ "Permission denied";
    "Operation not permitted";
    "Device or resource busy";
    "interface not in monitor mode";
    "no such device";
    "rtl_power: failed to open rtl" ].

(** [cmd] is [cmd.Args]; the first component of the result is the [Args] of
    the command returned. *)
Definition runCommandOrSudo (cmd : list string) (expectedErrorPatterns : list string)
  : St World (list string * string * option string) :=
  r <- CombinedOutput cmd ;;
  let '(output, err) := r in
  match err with
  | Some e =>
      let errorStr := output +:+ e in
      let indicators := sudoIndicators ++ expectedErrorPatterns in
      let needsSudo := existsb (Contains errorStr) indicators in
      if needsSudo then
        sudo <- LookPath "sudo" ;;
        match sudo with
        | Some sudoPath =>
            let sudoCmd := sudoPath :: cmd in
            r' <- CombinedOutput sudoCmd ;;
            let '(sudoOutput, sudoErr) := r' in
            ret (sudoCmd, sudoOutput, sudoErr)
        | None => ret (cmd, output, err)
        end
      else ret (cmd, output, err)
  | None => ret (cmd, output, err)
  end.

(** ** Findings log ([monitors.go], lines 1054-1082) *)

Definition AddAttack (attack : Attack) : Proc unit :=
  locked AttackMu
    (modifyG (fun g => setAttacks (Attacks g ++ [attack]) g) ;;
     g <- getG ;;
     if 1000 <? length (Attacks g)
     then modifyG (setAttacks (drop (length (Attacks g) - 1000) (Attacks g)))
     else ret tt).

(** [limit] is a Go [int]. *)
Definition GetRecentAttacks (limit : Z) : Proc (list Attack) :=
  g <- getG ;;
  let n := Z.of_nat (length (Attacks g)) in
  if ((limit <=? 0) || (n <? limit))%Z then ret (Attacks g)
  else ret (drop (Z.to_nat (n - limit)) (Attacks g)).

(** ** Detection heuristics ([monitors.go], lines 900-1052) *)

(** An [Attack{...}] literal whose [Timestamp] is [time.Now()]. *)
Definition newAttack (ty sev desc tgt : string) : St World Attack :=
  t <- Now ;;
  ret {| Type_ := ty; Severity := sev; Description := desc; Target := tgt;
         Timestamp := instant t |}.

Definition isNamed (s : string) : bool :=
  negb (isEmpty s) && negb (String.eqb s "Hidden").

(** The first loop of [DetectWiFiAttacks]: SSID to the BSSIDs seen with it,
    in order of appearance and with repetitions. *)
Definition ssidCountStep (ssidCounts : gmap string (list string)) (device : WifiAP)
  : gmap string (list string) :=
  if isNamed (ESSID device)
  then <[ESSID device := default [] (ssidCounts !! ESSID device) ++ [BSSID device]]>
         ssidCounts
  else ssidCounts.

Definition ssidCountsOf (devices : list WifiAP) : gmap string (list string) :=
  fold_left ssidCountStep devices ∅.

Definition roguePatterns : list string :=
  ["free"; "public"; "hack"; "test"; "evil"; "wifi"; "guest"; "default"].

(** The bodies of the three loops of [DetectWiFiAttacks]; [attacks] is the
    slice built so far. *)
Definition evilTwinStep (ssidCounts : gmap string (list string))
    (attacks : list Attack) (ssid : string) : St World (list Attack) :=
  let bssids := default [] (ssidCounts !! ssid) in
  if 1 <? length bssids then
    a <- newAttack "EVIL_TWIN" "High"
           ("Potential evil twin attack: SSID '" +:+ ssid +:+ "' appears "
            +:+ itoa (length bssids) +:+ " times")
           ssid ;;
    ret (attacks ++ [a])
  else ret attacks.

Definition rogueStep (attacks : list Attack) (device : WifiAP) : St World (list Attack) :=
  let ssidLower := ToLower (ESSID device) in
  match find (Contains ssidLower) roguePatterns with
  | Some _ =>
      a <- newAttack "ROGUE_AP" "High"
             ("Potentially rogue access point detected: " +:+ ESSID device)
             (ESSID device) ;;
      ret (attacks ++ [a])
  | None => ret attacks
  end.

Definition weakStep (attacks : list Attack) (device : WifiAP) : St World (list Attack) :=
  if Contains (ToLower (ENC device)) "wep" then
    a <- newAttack "WEAK_ENCRYPTION" "High"
           ("Weak encryption (WEP) detected on network: " +:+ ESSID device)
           (ESSID device) ;;
    ret (attacks ++ [a])
  else ret attacks.

Definition DetectWiFiAttacks (devices : list WifiAP) : St World (list Attack) :=
  let attacks : list Attack := [] in
  (* Evil Twin Detection - Duplicate SSIDs *)
  let ssidCounts := ssidCountsOf devices in
  ssids <- rangeKeys ssidCounts ;;
  attacks <- forEach ssids attacks (evilTwinStep ssidCounts) ;;
  (* Rogue Access Point Detection *)
  attacks <- forEach devices attacks rogueStep ;;
  (* Weak Encryption Detection *)
  attacks <- forEach devices attacks weakStep ;;
  ret attacks.

Definition suspiciousNames : list string :=
  ["attack"; "hack"; "exploit"; "test"; "spoof"; "evil"; "malware"; "virus"].

Definition mitmPatterns : gmap string string :=
  list_to_map
    [("proxy", "proxy"); ("gateway", "gateway"); ("bridge", "bridge");
     ("intercept", "intercept")].

Definition massScanStep (devices : list BluetoothDevice) (attacks : list Attack)
  : St World (list Attack) :=
  if 20 <? length devices then
    a <- newAttack "BLUETOOTH_MASS_SCANNING" "Medium"
           ("Mass scanning detected: " +:+ itoa (length devices)
            +:+ " Bluetooth devices found (unusual activity)")
           "bluetooth_network" ;;
    ret (attacks ++ [a])
  else ret attacks.

Definition spoofStep (attacks : list Attack) (device : BluetoothDevice)
  : St World (list Attack) :=
  let nameLower := ToLower (Name device) in
  match find (Contains nameLower) suspiciousNames with
  | Some _ =>
      a <- newAttack "BLUETOOTH_SPOOFING" "High"
             ("Suspicious Bluetooth device name: " +:+ Name device
              +:+ " (" +:+ Address device +:+ ")")
             (Address device) ;;
      ret (attacks ++ [a])
  | None => ret attacks
  end.

(** The inner loop ranges over the map [mitmPatterns] and stops at the first
    pattern found in the name. *)
Definition mitmStep (attacks : list Attack) (device : BluetoothDevice)
  : St World (list Attack) :=
  let nameLower := ToLower (Name device) in
  patterns <- rangeKeys mitmPatterns ;;
  match find (Contains nameLower) patterns with
  | Some pattern =>
      let desc := default EmptyString (mitmPatterns !! pattern) in
      a <- newAttack "BLUETOOTH_MITM" "High"
             ("Potential Man-in-the-Middle device: " +:+ Name device
              +:+ " (" +:+ Address device +:+ ") - appears to be " +:+ desc)
             (Address device) ;;
      ret (attacks ++ [a])
  | None => ret attacks
  end.

Definition DetectBluetoothAttacks (devices : list BluetoothDevice) : St World (list Attack) :=
  let attacks : list Attack := [] in
  (* Mass Scanning Detection *)
  attacks <- massScanStep devices attacks ;;
  (* Spoofing Detection *)
  attacks <- forEach devices attacks spoofStep ;;
  (* Man-in-the-Middle Detection *)
  attacks <- forEach devices attacks mitmStep ;;
  ret attacks.

Definition dangerousPorts : gmap string string :=
  list_to_map
    [("21/tcp", "FTP"); ("23/tcp", "Telnet"); ("3389/tcp", "RDP"); ("445/tcp", "SMB")].

Definition portStep (outputStr : string) (attacks : list Attack) (port : string)
  : St World (list Attack) :=
  let service := default EmptyString (dangerousPorts !! port) in
  if Contains outputStr port && Contains outputStr "open" then
    a <- newAttack "SUSPICIOUS_PORT" "Medium"
           ("Suspicious open port detected: " +:+ port +:+ " (" +:+ service +:+ ")")
           "network" ;;
    ret (attacks ++ [a])
  else ret attacks.

Definition nmapScan : list string :=
  ["nmap"; "-p"; "21,23,3389,445"; "--open"; "192.168.1.0/24"].

Definition DetectNetworkAttacks : St World (list Attack) :=
  let attacks : list Attack := [] in
  nmap <- LookPath "nmap" ;;
  match nmap with
  | Some _ =>
      r <- CombinedOutput nmapScan ;;
      let '(output, err) := r in
      match err with
      | None =>
          let outputStr := output in
          ports <- rangeKeys dangerousPorts ;;
          forEach ports attacks (portStep outputStr)
      | Some _ => ret attacks
      end
  | None => ret attacks
  end.

(** ** Service health records *)

Definition withStatus (v : string) (s : ServiceStatus) : ServiceStatus :=
  {| ServiceName := ServiceName s; Status := v; LastUpdate := LastUpdate s;
     ErrorMsg := ErrorMsg s; LogEntries := LogEntries s |}.

Definition withErrorMsg (v : string) (s : ServiceStatus) : ServiceStatus :=
  {| ServiceName := ServiceName s; Status := Status s; LastUpdate := LastUpdate s;
     ErrorMsg := v; LogEntries := LogEntries s |}.

Definition withLastUpdate (v : string) (s : ServiceStatus) : ServiceStatus :=
  {| ServiceName := ServiceName s; Status := Status s; LastUpdate := v;
     ErrorMsg := ErrorMsg s; LogEntries := LogEntries s |}.

Definition withLogEntries (v : list string) (s : ServiceStatus) : ServiceStatus :=
  {| ServiceName := ServiceName s; Status := Status s; LastUpdate := LastUpdate s;
     ErrorMsg := ErrorMsg s; LogEntries := v |}.

(** An assignment through the pointer [ServiceStatuses[key]], which every
    sampler has made non-nil in its first critical section. *)
Definition updStatus (key : string) (f : ServiceStatus -> ServiceStatus) : Proc unit :=
  modifyG (fun g => setServiceStatuses (alter f key (ServiceStatuses g)) g).

(** The opening critical section of every sampler: create the map and the
    domain's record when missing. *)
Definition ensureStatus (key name : string) : Proc unit :=
  locked StatusMu
    (g <- getG ;;
     match ServiceStatuses g !! key with
     | Some _ => ret tt
     | None =>
         t <- host Now ;;
         modifyG (fun g =>
           setServiceStatuses
             (<[key := {| ServiceName := name; Status := "running";
                          LastUpdate := dateTime t; ErrorMsg := EmptyString;
                          LogEntries := [] |}]> (ServiceStatuses g)) g)
     end).

(** [ServiceStatuses[key].Status = v] *)
Definition assignStatus (key v : string) : Proc unit := updStatus key (withStatus v).

(** [ServiceStatuses[key].ErrorMsg = v] *)
Definition assignErrorMsg (key v : string) : Proc unit := updStatus key (withErrorMsg v).

(** [ServiceStatuses[key].LastUpdate = time.Now().Format("2006-01-02 15:04:05")] *)
Definition assignLastUpdate (key : string) : Proc unit :=
  t <- host Now ;; updStatus key (withLastUpdate (dateTime t)).

(** [ServiceStatuses[key].LogEntries = append(ServiceStatuses[key].LogEntries,
    fmt.Sprintf("[%s] " + text, time.Now().Format("15:04:05")))] *)
Definition appendLogEntry (key text : string) : Proc unit :=
  t <- host Now ;;
  updStatus key (fun s =>
    withLogEntries (LogEntries s ++ ["[" +:+ hms t +:+ "] " +:+ text]) s).

(** [if len(LogEntries) > 10 { LogEntries = LogEntries[len(LogEntries)-10:] }] *)
Definition trimLogEntries (key : string) : Proc unit :=
  updStatus key (fun s =>
    if 10 <? length (LogEntries s)
    then withLogEntries (drop (length (LogEntries s) - 10) (LogEntries s)) s
    else s).

(** ** Network sampler ([monitors.go], lines 194-261) *)

(** How a sampler pass ends: it returns, or the Go runtime panics. *)
Inductive Outcome : Type :=
  | Returned
  | Panicked (why : string).

(** The loop over the lines of the ping output: [None] when the index
    expression [strings.SplitN(line, "=", 2)[1]] is out of range. *)
Definition rttMinOf (lines : list string) : option string :=
  match find (fun line => Contains line "rtt min/avg/max/mdev") lines with
  | Some line =>
      match SplitN line "=" 2 !! 1 with
      | Some piece => Some (TrimSpace piece)
      | None => None
      end
  | None => Some EmptyString
  end.

Definition rttAvgOf (rttMin : string) : string :=
  let parts := Split rttMin "/" in
  if 2 <=? length parts then nth 1 parts EmptyString +:+ "ms" else "Unknown".

Definition pingCmd : list string := ["ping"; "-c"; "3"; "-i"; "0.2"; "8.8.8.8"].

Definition MonitorNetwork : Proc Outcome :=
  ensureStatus "network" "Network Monitoring" ;;
  r <- host (Output pingCmd) ;;
  let '(output, err) := r in
  match err with
  | Some _ =>
      locked StatusMu
        (assignStatus "network" "error" ;;
         assignErrorMsg "network" "Network is offline" ;;
         assignLastUpdate "network" ;;
         appendLogEntry "network" "Network offline" ;;
         trimLogEntries "network") ;;
      locked NetMu
        (modifyG (setNetworkInfo {| Online := false; AvgLatency := "N/A" |})) ;;
      ret Returned
  | None =>
      let outputStr := output in
      let lines := Split outputStr NL in
      match rttMinOf lines with
      | None => ret (Panicked "index out of range [1] with length 1")
      | Some rttMin =>
          let rttAvg := rttAvgOf rttMin in
          locked StatusMu
            (assignStatus "network" "running" ;;
             assignErrorMsg "network" EmptyString ;;
             assignLastUpdate "network" ;;
             appendLogEntry "network" ("Online, latency: " +:+ rttAvg) ;;
             trimLogEntries "network") ;;
          locked NetMu
            (modifyG (setNetworkInfo {| Online := true; AvgLatency := rttAvg |})) ;;
          ret Returned
      end
  end.

(** ** Bluetooth sampler ([monitors.go], lines 263-375) *)

Definition errOf (r : list string * string * option string) : option string := snd r.
Definition outputOf (r : list string * string * option string) : string := snd (fst r).

(** [if err != nil { cmd, output, err = next }] *)
Definition orElse (r : list string * string * option string)
    (next : Proc (list string * string * option string))
  : Proc (list string * string * option string) :=
  match errOf r with
  | Some _ => next
  | None => ret r
  end.

Definition appendBtDevice (device : BluetoothDevice) : Proc unit :=
  locked BtMu (modifyG (fun g => setBtDevices (BtDevices g ++ [device]) g)).

(** The body of the loop over the lines of the scan output. *)
Definition btLine (line : string) : Proc unit :=
  let trimmed := TrimSpace line in
  (if Contains trimmed TAB && negb (HasPrefix trimmed "Scanning") then
     let parts := Fields trimmed in
     if 2 <=? length parts then
       appendBtDevice {| Address := nth 0 parts EmptyString;
                         Name := Join (drop 1 parts) " " |}
     else ret tt
   else ret tt) ;;
  (if HasPrefix trimmed "Device " && Contains trimmed " " then
     let parts := Fields trimmed in
     if 3 <=? length parts then
       appendBtDevice {| Address := nth 1 parts EmptyString;
                         Name := Join (drop 2 parts) " " |}
     else ret tt
   else ret tt).

Definition MonitorBluetooth : Proc unit :=
  ensureStatus "bluetooth" "Bluetooth Monitoring" ;;
  r <- host (runCommandOrSudo ["timeout"; "10"; "hcitool"; "scan"]
               ["Operation not permitted"; "Permission denied"]) ;;
  r <- orElse r (host (runCommandOrSudo ["timeout"; "10"; "btmgmt"; "find"]
                         ["Operation not permitted"; "Permission denied"])) ;;
  r <- orElse r (host (runCommandOrSudo ["timeout"; "10"; "bluetoothctl"; "devices"]
                         ["No default controller available"])) ;;
  match errOf r with
  | Some e =>
      locked StatusMu
        (assignStatus "bluetooth" "error" ;;
         assignErrorMsg "bluetooth" ("All Bluetooth scanning methods failed: " +:+ e) ;;
         assignLastUpdate "bluetooth" ;;
         appendLogEntry "bluetooth" "ERROR: All Bluetooth scanning methods failed" ;;
         trimLogEntries "bluetooth")
  | None =>
      let lines := Split (outputOf r) NL in
      locked BtMu (modifyG (setBtDevices [])) ;;
      forEach lines tt (fun _ line => btLine line) ;;
      locked StatusMu
        (assignStatus "bluetooth" "running" ;;
         assignErrorMsg "bluetooth" EmptyString ;;
         assignLastUpdate "bluetooth" ;;
         g <- getG ;;
         appendLogEntry "bluetooth"
           ("Monitored " +:+ itoa (length (BtDevices g)) +:+ " Bluetooth devices") ;;
         trimLogEntries "bluetooth") ;;
      (* Detect Bluetooth attacks, under the read lock *)
      g <- getG ;;
      btAttacks <- host (DetectBluetoothAttacks (BtDevices g)) ;;
      forEach btAttacks tt (fun _ attack => AddAttack attack)
  end.

(** ** BLE sampler ([monitors.go], lines 377-484) *)

Definition appendBleDevice (device : BLEDevice) : Proc unit :=
  locked BleMu (modifyG (fun g => setBleDevices (BleDevices g ++ [device]) g)).

Definition bleLine (line : string) : Proc unit :=
  let trimmed := TrimSpace line in
  if Contains trimmed ":" && negb (HasPrefix trimmed "LE Scan")
     && negb (isEmpty trimmed) then
    let parts := Split trimmed " " in
    let addr := nth 0 parts EmptyString in
    if (2 <=? length parts) && Contains addr ":" && HasSuffix addr ":" then
      let data := Join (drop 1 parts) " " in
      let isAirTagCandidate := Contains data "Apple" || Contains data "004C" in
      appendBleDevice
        {| BLEAddress := addr;
           Data := data +:+ (if isAirTagCandidate then " (Potential AirTag)"
                             else EmptyString);
           RSSI := 0%Z |}
    else ret tt
  else ret tt.

(** What follows the cascade when it is not reported as failed. *)
Definition bleReplace (output : string) : Proc unit :=
  let lines := Split output NL in
  locked BleMu (modifyG (setBleDevices [])) ;;
  forEach lines tt (fun _ line => bleLine line) ;;
  locked StatusMu
    (assignStatus "airtag" "running" ;;
     assignErrorMsg "airtag" EmptyString ;;
     assignLastUpdate "airtag" ;;
     g <- getG ;;
     appendLogEntry "airtag"
       ("Monitored " +:+ itoa (length (BleDevices g)) +:+ " BLE devices") ;;
     trimLogEntries "airtag").

Definition MonitorAirTag : Proc unit :=
  ensureStatus "airtag" "AirTag/BLE Monitoring" ;;
  r <- host (runCommandOrSudo ["timeout"; "10"; "hcitool"; "lescan"; "--dup"]
               ["Set scan parameters failed"; "Operation not permitted"]) ;;
  r <- orElse r
         (r <- host (runCommandOrSudo ["timeout"; "10"; "bluetoothctl"; "scan"; "on"]
                       ["Failed to start discovery"; "No default controller available"]) ;;
          match errOf r with
          | None =>
              (* time.Sleep(3 * time.Second) *)
              host (Run ["timeout"; "5"; "bluetoothctl"; "scan"; "off"]) ;;
              ret r
          | Some _ => ret r
          end) ;;
  r <- orElse r
         (r <- host (runCommandOrSudo ["timeout"; "10"; "btmgmt"; "find"]
                       ["Operation not permitted"; "Permission denied"]) ;;
          orElse r (host (runCommandOrSudo ["timeout"; "8"; "hcitool"; "scan"]
                            ["Operation not permitted"; "Permission denied"]))) ;;
  match errOf r with
  | Some e =>
      if negb (Contains (outputOf r) "exit status 124") then
        locked StatusMu
          (assignStatus "airtag" "error" ;;
           assignErrorMsg "airtag"
             ("All BLE scanning methods failed. hcitool: " +:+ e
              +:+ ", bluetoothctl: " +:+ e +:+ ", btmgmt: " +:+ e) ;;
           assignLastUpdate "airtag" ;;
           appendLogEntry "airtag" "ERROR: All BLE scanning methods failed" ;;
           trimLogEntries "airtag")
      else bleReplace (outputOf r)
  | None => bleReplace (outputOf r)
  end.

(** ** Wi-Fi sampler ([monitors.go], lines 135-192 and 607-860) *)

Record InterfaceInfo : Type := {
  IfName : string;
  Mode : string;
}.

Definition parseIwconfigOutput (output : string) : list InterfaceInfo :=
  fold_left
    (fun interfaces line =>
       let line := TrimSpace line in
       if Contains line "IEEE" then
         let parts := Fields line in
         if 1 <=? length parts then
           let ifaceName := TrimSuffix (nth 0 parts EmptyString) ":" in
           let mode :=
             if Contains line "Mode:" then
               let modeParts := Split line "Mode:" in
               if 2 <=? length modeParts
               then TrimSpace (nth 0 (Split (nth 1 modeParts EmptyString) " ") EmptyString)
               else "Managed"
             else "Managed" in
           interfaces ++ [{| IfName := ifaceName; Mode := mode |}]
         else interfaces
       else interfaces)
    (Split output NL) [].

(** The last loop of [getWifiInterfaces]: first occurrences of the names
    that start with "wlan". *)
Definition uniqueWlan (wifiInterfaces : list string) : list string :=
  snd (fold_left
         (fun (st : gset string * list string) iface =>
            let (seen, uniqueInterfaces) := st in
            if negb (bool_decide (iface ∈ seen)) && HasPrefix iface "wlan"
            then ({[iface]} ∪ seen, uniqueInterfaces ++ [iface])
            else st)
         wifiInterfaces (∅, [])).

Definition getWifiInterfaces : St World (list string * option string) :=
  r <- Output ["cat"; "/proc/net/wireless"] ;;
  let '(output, err) := r in
  match err with
  | Some _ =>
      r' <- Output ["iwconfig"] ;;
      let '(output, err) := r' in
      match err with
      | Some e => ret ([], Some e)
      | None =>
          let wifiInterfaces :=
            fold_left
              (fun acc line =>
                 let line := TrimSpace line in
                 if Contains line "IEEE" then
                   let parts := Fields line in
                   if 1 <=? length parts
                   then acc ++ [TrimSuffix (nth 0 parts EmptyString) ":"]
                   else acc
                 else acc)
              (Split output NL) [] in
          ret (uniqueWlan wifiInterfaces, None)
      end
  | None =>
      let wifiInterfaces :=
        fold_left
          (fun acc line =>
             let parts := Fields line in
             if 1 <=? length parts then
               let ifaceName := TrimSuffix (TrimSpace (nth 0 parts EmptyString)) ":" in
               if negb (isEmpty ifaceName) then acc ++ [ifaceName] else acc
             else acc)
          (drop 1 (Split output NL)) [] in
      ret (uniqueWlan wifiInterfaces, None)
  end.

Definition getOrCreateMonitorInterface : St World (string * option string) :=
  r <- Output ["iwconfig"] ;;
  let '(output, err) := r in
  let existing :=
    match err with
    | None => find (fun iface => String.eqb (Mode iface) "Monitor") (parseIwconfigOutput output)
    | Some _ => None
    end in
  match existing with
  | Some iface => ret (IfName iface, None)
  | None =>
      r' <- getWifiInterfaces ;;
      let '(wifiInterfaces, err) := r' in
      match err, wifiInterfaces with
      | Some _, _ | None, [] => ret (EmptyString, Some "no WiFi interfaces found")
      | None, targetInterface :: _ =>
          Run ["ifconfig"; targetInterface; "down"] ;;
          err <- Run ["iwconfig"; targetInterface; "mode"; "monitor"] ;;
          match err with
          | Some e =>
              ret (EmptyString,
                   Some ("failed to set monitor mode on " +:+ targetInterface
                         +:+ ": " +:+ e))
          | None =>
              Run ["ifconfig"; targetInterface; "up"] ;;
              ret (targetInterface, None)
          end
      end
  end.

(** The state of the loop of [fallbackScanWifi] over the lines of the scan. *)
Record ScanState : Type := {
  aps : list WifiAP;
  currentBSSID : string;
  currentSSID : string;
  currentPWR : Z;
}.

Definition flushAP (st : ScanState) : list WifiAP :=
  if negb (isEmpty (currentBSSID st))
  then aps st ++ [{| BSSID := currentBSSID st; PWR := currentPWR st; Beacons := 0%Z;
                     ENC := "WPA2"; ESSID := currentSSID st |}]
  else aps st.

Definition scanLine (st : ScanState) (line : string) : ScanState :=
  let line := TrimSpace line in
  if Contains line "BSS " then
    let aps' := flushAP st in
    let parts := Fields line in
    if 2 <=? length parts
    then {| aps := aps'; currentBSSID := TrimSpace (nth 1 parts EmptyString);
            currentSSID := EmptyString; currentPWR := 0%Z |}
    else {| aps := aps'; currentBSSID := currentBSSID st;
            currentSSID := currentSSID st; currentPWR := currentPWR st |}
  else if Contains line "signal: " then
    let parts := Split line "signal: " in
    if 2 <=? length parts then
      let signalStr := TrimSpace (nth 1 parts EmptyString) in
      let signalStr :=
        if HasSuffix signalStr " dBm" then TrimSuffix signalStr " dBm" else signalStr in
      {| aps := aps st; currentBSSID := currentBSSID st;
         currentSSID := currentSSID st; currentPWR := Atoi signalStr |}
    else st
  else if Contains line "SSID: " then
    let parts := Split line "SSID: " in
    if 2 <=? length parts
    then {| aps := aps st; currentBSSID := currentBSSID st;
            currentSSID := TrimSpace (nth 1 parts EmptyString);
            currentPWR := currentPWR st |}
    else st
  else st.

Definition parseIwScan (output : string) : list WifiAP :=
  flushAP (fold_left scanLine (Split output NL)
             {| aps := []; currentBSSID := EmptyString; currentSSID := EmptyString;
                currentPWR := 0%Z |}).

Definition fallbackScanWifi : Proc unit :=
  r <- host getWifiInterfaces ;;
  let '(interfaces, err) := r in
  match err, interfaces with
  | Some _, _ | None, [] =>
      locked StatusMu
        (assignStatus "wifi" "error" ;;
         assignErrorMsg "wifi" "No wireless interfaces found" ;;
         assignLastUpdate "wifi")
  | None, iface :: _ =>
      r' <- host (CombinedOutput ["timeout"; "8"; "iw"; "dev"; iface; "scan"]) ;;
      let '(output, err) := r' in
      match err with
      | Some e =>
          locked StatusMu
            (assignStatus "wifi" "error" ;;
             assignErrorMsg "wifi" ("iw scan failed: " +:+ e) ;;
             assignLastUpdate "wifi" ;;
             appendLogEntry "wifi" "Fallback scan failed" ;;
             trimLogEntries "wifi")
      | None =>
          let aps := parseIwScan output in
          locked WifiMu (modifyG (setWifi aps [])) ;;
          locked StatusMu
            (assignStatus "wifi" "running" ;;
             assignErrorMsg "wifi" EmptyString ;;
             assignLastUpdate "wifi" ;;
             appendLogEntry "wifi"
               ("Fallback scan found " +:+ itoa (length aps) +:+ " access points") ;;
             trimLogEntries "wifi")
      end
  end.

(** [logToFile] and [log.Printf] write to the process log and leave the
    package variables alone; they are not part of the embedding. *)
Definition MonitorWifi : Proc unit :=
  ensureStatus "wifi" "WiFi Monitoring" ;;
  airodump <- host (LookPath "airodump-ng") ;;
  match airodump with
  | None =>
      locked StatusMu
        (assignStatus "wifi" "error" ;;
         assignErrorMsg "wifi" "airodump-ng not installed" ;;
         assignLastUpdate "wifi" ;;
         appendLogEntry "wifi" "airodump-ng not found")
  | Some _ =>
      r <- host getOrCreateMonitorInterface ;;
      let '(monitorInterface, err) := r in
      match err with
      | Some e =>
          locked StatusMu
            (assignStatus "wifi" "error" ;;
             assignErrorMsg "wifi" ("Error setting up monitor interface: " +:+ e) ;;
             assignLastUpdate "wifi" ;;
             appendLogEntry "wifi" ("ERROR: " +:+ e)) ;;
          fallbackScanWifi
      | None =>
          locked StatusMu
            (assignStatus "wifi" "running" ;;
             assignErrorMsg "wifi" EmptyString ;;
             assignLastUpdate "wifi" ;;
             appendLogEntry "wifi" ("Using WiFi interface: " +:+ monitorInterface)) ;;
          fallbackScanWifi
      end
  end.

(** ** The blocker (package [detector]) *)

(** What the blocker hands to its logger ([internal/logging], an output
    sink): the lines, in order. *)
Inductive LogLine : Type :=
  | LogInfo (msg : string)
  | LogError (msg : string) (err : string).

Record Blocker : Type := {
  logger : list LogLine;
  blockedIPs : gmap string Time;
  blockedMACs : gmap string Time;
  blockedBTAddrs : gmap string Time;
  autoBlock : bool;
}.

Definition NewBlocker (autoBlock : bool) : Blocker :=
  {| logger := []; blockedIPs := ∅; blockedMACs := ∅; blockedBTAddrs := ∅;
     autoBlock := autoBlock |}.

Definition logTo (l : LogLine) (b : Blocker) : Blocker :=
  {| logger := logger b ++ [l]; blockedIPs := blockedIPs b;
     blockedMACs := blockedMACs b; blockedBTAddrs := blockedBTAddrs b;
     autoBlock := autoBlock b |}.

Definition setBlockedIPs (m : gmap string Time) (b : Blocker) : Blocker :=
  {| logger := logger b; blockedIPs := m; blockedMACs := blockedMACs b;
     blockedBTAddrs := blockedBTAddrs b; autoBlock := autoBlock b |}.

Definition setBlockedMACs (m : gmap string Time) (b : Blocker) : Blocker :=
  {| logger := logger b; blockedIPs := blockedIPs b; blockedMACs := m;
     blockedBTAddrs := blockedBTAddrs b; autoBlock := autoBlock b |}.

Definition setBlockedBTAddrs (m : gmap string Time) (b : Blocker) : Blocker :=
  {| logger := logger b; blockedIPs := blockedIPs b; blockedMACs := blockedMACs b;
     blockedBTAddrs := m; autoBlock := autoBlock b |}.

(** [_, exists := m[k]] *)
Definition exists_ (m : gmap string Time) (k : string) : bool :=
  bool_decide (is_Some (m !! k)).

Definition isCommandAvailable (cmd : string) : St World bool :=
  p <- LookPath cmd ;; ret (bool_decide (is_Some p)).

(** A method of [*Blocker] takes the blocker and gives back the blocker it
    leaves and the [error] it returns. *)
Definition Method : Type := St World (Blocker * option string).

(** Lines 66-77 of [BlockIP]: run the command picked, then record. *)
Definition finishBlockIP (b : Blocker) (ip reason : string) (cmd : option (list string))
  : Method :=
  err <- match cmd with Some argv => Run argv | None => ret None end ;;
  match err with
  | Some e => ret (b, Some ("failed to block IP " +:+ ip +:+ ": " +:+ e))
  | None =>
      t <- Now ;;
      ret (logTo (LogInfo ("Blocked IP " +:+ ip +:+ ": " +:+ reason))
             (setBlockedIPs (<[ip := instant t]> (blockedIPs b)) b),
           None)
  end.

(** In the firewalld branch the first command is run inside the branch and,
    when it fails, the same command is run once more at line 67. *)
Definition BlockIP (b : Blocker) (ip reason : string) : Method :=
  if exists_ (blockedIPs b) ip then
    ret (b, Some ("IP " +:+ ip +:+ " is already blocked"))
  else
    ufw <- isCommandAvailable "ufw" ;;
    if ufw then
      finishBlockIP b ip reason (Some ["sudo"; "ufw"; "deny"; "from"; ip])
    else
      firewalld <- isCommandAvailable "firewall-cmd" ;;
      if firewalld then
        let add := ["sudo"; "firewall-cmd"; "--permanent"; "--add-rich-rule";
                    "rule family='ipv4' source address='" +:+ ip +:+ "' reject"] in
        err <- Run add ;;
        finishBlockIP b ip reason
          (Some (match err with
                 | None => ["sudo"; "firewall-cmd"; "--reload"]
                 | Some _ => add
                 end))
      else
        iptables <- isCommandAvailable "iptables" ;;
        if iptables then
          finishBlockIP b ip reason
            (Some ["sudo"; "iptables"; "-I"; "INPUT"; "-s"; ip; "-j"; "DROP"])
        else
          ret (b, Some "no supported firewall tool found (ufw, firewalld, iptables)").

Definition finishUnblockIP (b : Blocker) (ip : string) (cmd : option (list string))
  : Method :=
  err <- match cmd with Some argv => Run argv | None => ret None end ;;
  match err with
  | Some e => ret (b, Some ("failed to unblock IP " +:+ ip +:+ ": " +:+ e))
  | None =>
      ret (logTo (LogInfo ("Unblocked IP " +:+ ip))
             (setBlockedIPs (delete ip (blockedIPs b)) b),
           None)
  end.

Definition UnblockIP (b : Blocker) (ip : string) : Method :=
  if negb (exists_ (blockedIPs b) ip) then
    ret (b, Some ("IP " +:+ ip +:+ " is not blocked"))
  else
    ufw <- isCommandAvailable "ufw" ;;
    if ufw then
      finishUnblockIP b ip (Some ["sudo"; "ufw"; "delete"; "deny"; "from"; ip])
    else
      firewalld <- isCommandAvailable "firewall-cmd" ;;
      if firewalld then
        let remove := ["sudo"; "firewall-cmd"; "--permanent"; "--remove-rich-rule";
                       "rule family='ipv4' source address='" +:+ ip +:+ "' reject"] in
        err <- Run remove ;;
        finishUnblockIP b ip
          (Some (match err with
                 | None => ["sudo"; "firewall-cmd"; "--reload"]
                 | Some _ => remove
                 end))
      else
        iptables <- isCommandAvailable "iptables" ;;
        if iptables then
          finishUnblockIP b ip
            (Some ["sudo"; "iptables"; "-D"; "INPUT"; "-s"; ip; "-j"; "DROP"])
        else
          ret (b, Some "no supported firewall tool found").

Definition recordMAC (b : Blocker) (mac reason : string) : Method :=
  t <- Now ;;
  ret (logTo (LogInfo ("Blocked MAC " +:+ mac +:+ ": " +:+ reason))
         (setBlockedMACs (<[mac := instant t]> (blockedMACs b)) b),
       None).

(** Lines 142-155 of [BlockMAC]: the iptables fallback. *)
Definition blockMACFallback (b : Blocker) (mac reason : string) : Method :=
  iptables <- isCommandAvailable "iptables" ;;
  if iptables then
    err <- Run ["sudo"; "iptables"; "-I"; "INPUT"; "-m"; "mac"; "--mac-source"; mac;
                "-j"; "DROP"] ;;
    match err with
    | Some e => ret (b, Some ("failed to block MAC " +:+ mac +:+ ": " +:+ e))
    | None => recordMAC b mac reason
    end
  else ret (b, Some "no supported tool for MAC blocking (ebtables or iptables)").

Definition BlockMAC (b : Blocker) (mac reason : string) : Method :=
  if exists_ (blockedMACs b) mac then
    ret (b, Some ("MAC " +:+ mac +:+ " is already blocked"))
  else
    ebtables <- isCommandAvailable "ebtables" ;;
    if ebtables then
      err <- Run ["sudo"; "ebtables"; "-A"; "INPUT"; "-s"; mac; "-j"; "DROP"] ;;
      match err with
      | None => recordMAC b mac reason
      | Some _ => blockMACFallback b mac reason
      end
    else blockMACFallback b mac reason.

Definition forgetMAC (b : Blocker) (mac : string) : Blocker * option string :=
  (logTo (LogInfo ("Unblocked MAC " +:+ mac))
     (setBlockedMACs (delete mac (blockedMACs b)) b),
   None).

Definition unblockMACFallback (b : Blocker) (mac : string) : Method :=
  iptables <- isCommandAvailable "iptables" ;;
  if iptables then
    err <- Run ["sudo"; "iptables"; "-D"; "INPUT"; "-m"; "mac"; "--mac-source"; mac;
                "-j"; "DROP"] ;;
    match err with
    | Some e => ret (b, Some ("failed to unblock MAC " +:+ mac +:+ ": " +:+ e))
    | None => ret (forgetMAC b mac)
    end
  else ret (b, Some "no supported tool for MAC unblocking").

Definition UnblockMAC (b : Blocker) (mac : string) : Method :=
  if negb (exists_ (blockedMACs b) mac) then
    ret (b, Some ("MAC " +:+ mac +:+ " is not blocked"))
  else
    ebtables <- isCommandAvailable "ebtables" ;;
    if ebtables then
      err <- Run ["sudo"; "ebtables"; "-D"; "INPUT"; "-s"; mac; "-j"; "DROP"] ;;
      match err with
      | None => ret (forgetMAC b mac)
      | Some _ => unblockMACFallback b mac
      end
    else unblockMACFallback b mac.

Definition recordBT (b : Blocker) (btAddr reason : string) : Method :=
  t <- Now ;;
  ret (logTo (LogInfo ("Blocked Bluetooth device " +:+ btAddr +:+ ": " +:+ reason))
         (setBlockedBTAddrs (<[btAddr := instant t]> (blockedBTAddrs b)) b),
       None).

Definition BlockBluetoothDevice (b : Blocker) (btAddr reason : string) : Method :=
  if exists_ (blockedBTAddrs b) btAddr then
    ret (b, Some ("Bluetooth device " +:+ btAddr +:+ " is already blocked"))
  else
    rfkill <- isCommandAvailable "rfkill" ;;
    if rfkill then
      err <- Run ["sudo"; "rfkill"; "block"; "bluetooth"] ;;
      match err with
      | Some e =>
          ret (logTo (LogError ("Failed to block Bluetooth device " +:+ btAddr) e) b,
               Some e)
      | None => recordBT b btAddr reason
      end
    else recordBT b btAddr reason.

Definition forgetBT (b : Blocker) (btAddr : string) : Blocker * option string :=
  (logTo (LogInfo ("Unblocked Bluetooth device " +:+ btAddr))
     (setBlockedBTAddrs (delete btAddr (blockedBTAddrs b)) b),
   None).

Definition UnblockBluetoothDevice (b : Blocker) (btAddr : string) : Method :=
  if negb (exists_ (blockedBTAddrs b) btAddr) then
    ret (b, Some ("Bluetooth device " +:+ btAddr +:+ " is not blocked"))
  else
    rfkill <- isCommandAvailable "rfkill" ;;
    if rfkill then
      err <- Run ["sudo"; "rfkill"; "unblock"; "bluetooth"] ;;
      match err with
      | Some e =>
          ret (b, Some ("failed to unblock Bluetooth device " +:+ btAddr +:+ ": " +:+ e))
      | None => ret (forgetBT b btAddr)
      end
    else ret (forgetBT b btAddr).

Definition findMonitorInterface : St World (string * option string) :=
  r <- Output ["iwconfig"] ;;
  let '(output, err) := r in
  match err with
  | Some e => ret (EmptyString, Some e)
  | None =>
      let lines := Split output NL in
      match find (fun line => Contains line "Mode:Monitor"
                              && (0 <? length (Fields line))) lines with
      | Some line => ret (TrimSuffix (nth 0 (Fields line) EmptyString) ":", None)
      | None => ret (EmptyString, Some "no monitor interface found")
      end
  end.

Definition DeauthWiFiClient (b : Blocker) (clientMAC apMAC reason : string) : Method :=
  aireplay <- isCommandAvailable "aireplay-ng" ;;
  if negb aireplay then
    ret (b, Some "aireplay-ng not available for WiFi deauthentication")
  else
    r <- findMonitorInterface ;;
    let '(monitorInterface, err) := r in
    match err with
    | Some e => ret (b, Some ("no monitor interface available for deauth: " +:+ e))
    | None =>
        err <- Run ["sudo"; "aireplay-ng"; "--deauth"; "10"; "-a"; apMAC;
                    "-c"; clientMAC; monitorInterface] ;;
        match err with
        | Some e =>
            ret (b, Some ("failed to deauth WiFi client " +:+ clientMAC +:+ ": " +:+ e))
        | None =>
            ret (logTo (LogInfo ("Deauthenticated WiFi client " +:+ clientMAC
                                 +:+ " from AP " +:+ apMAC +:+ ": " +:+ reason)) b,
                 None)
        end
    end.

Definition BlockWiFiAccessPoint (b : Blocker) (apMAC reason : string) : Method :=
  ret (logTo (LogInfo ("WiFi AP blocking not fully implemented for " +:+ apMAC
                       +:+ ": " +:+ reason)) b,
       Some "WiFi AP blocking requires additional configuration").

Definition oneOf (s : string) (cases : list string) : bool :=
  existsb (String.eqb s) cases.

(** [attack] is a [models.Attack], which carries the fields of [Attack]. *)
Definition AutoBlockAttack (b : Blocker) (attack : Attack) : Method :=
  if negb (autoBlock b) then ret (b, None)
  else if oneOf (Type_ attack) ["UNKNOWN_DEVICE"; "SUSPICIOUS_PORT"; "AI_CONNECTION_ANOMALY"] then
    if Contains (Target attack) "." then
      BlockIP b (Target attack) ("Auto-blocked: " +:+ Description attack)
    else ret (b, None)
  else if oneOf (Type_ attack) ["BLUETOOTH_SPOOFING"; "BLUETOOTH_MITM"] then
    BlockBluetoothDevice b (Target attack) ("Auto-blocked: " +:+ Description attack)
  else if oneOf (Type_ attack) ["EVIL_TWIN"; "ROGUE_AP"] then
    ret (logTo (LogInfo ("Would deauth clients from rogue AP: " +:+ Target attack)) b,
         None)
  else ret (b, None).

Record BlockedItems : Type := {
  BlockedIPs : gmap string Time;
  BlockedMACs : gmap string Time;
  BlockedBTAddrs : gmap string Time;
}.

Definition GetBlockedItems (b : Blocker) : BlockedItems :=
  {| BlockedIPs := blockedIPs b; BlockedMACs := blockedMACs b;
     BlockedBTAddrs := blockedBTAddrs b |}.

Definition SetAutoBlock (b : Blocker) (enabled : bool) : Blocker :=
  logTo (LogInfo ("Auto-blocking " +:+ (if enabled then "enabled" else "disabled")))
    {| logger := logger b; blockedIPs := blockedIPs b; blockedMACs := blockedMACs b;
       blockedBTAddrs := blockedBTAddrs b; autoBlock := enabled |}.

(** ** Running computations *)

(** The state a computation leaves and the value it returns. *)
Definition stateAfter {S A : Type} (m : St S A) (s : S) : S := snd (m s).
Definition valueOf {S A : Type} (m : St S A) (s : S) : A := fst (m s).

(** The last [n] elements of a list, as the slice expression [l[len(l)-n:]]
    computes them once [len(l) > n]. *)
Definition keepLast {A : Type} (n : nat) (l : list A) : list A :=
  drop (length l - n) l.

(** [AddAttack] on each finding in turn. *)
Definition AddAttacks (findings : list Attack) : Proc unit :=
  forEach findings tt (fun _ attack => AddAttack attack).

(** The same sampler pass [n] times in a row. *)
Fixpoint passes {A : Type} (n : nat) (pass : Proc A) : Proc unit :=
  match n with
  | O => ret tt
  | S k => pass ;; passes k pass
  end.

(** ** Sample hosts and inputs *)

Definition exited (out : string) (err : option string) : ProcResult :=
  {| stdout := out; combined := out; exitErr := err |}.

Definition epoch : Clock :=
  {| instant := 0%Z; dateTime := "2024-01-01 00:00:00"; hms := "00:00:00" |}.

(** A host with none of the tools installed. *)
Definition bareOracle : Oracle :=
  {| lookPath := fun _ => None;
     process := fun _ => exited EmptyString (Some "executable file not found in $PATH");
     clock := epoch;
     rank := fun _ => 0 |}.

Definition steady (o : Oracle) : World :=
  {| script := fun _ => o; ticks := 0; spawned := [] |}.

Definition bareHost : World := steady bareOracle.

(** A process that has just started on host [w]. *)
Definition boot (w : World) : Machine :=
  {| globals := zeroGlobals; world := w; released := [] |}.

Definition sampleFinding (n : nat) : Attack :=
  {| Type_ := "SUSPICIOUS_PORT"; Severity := "Medium";
     Description := "finding " +:+ itoa n; Target := "network";
     Timestamp := Z.of_nat n |}.

Definition sampleFindings (n : nat) : list Attack := map sampleFinding (seq 0 n).

(** The recent events of a domain's health record ([nil] before the record
    exists). *)
Definition logOf (key : string) (m : Machine) : list string :=
  match ServiceStatuses (globals m) !! key with
  | Some s => LogEntries s
  | None => []
  end.

(** The values of [BtDevices] and [BleDevices] that a task taking the read
    lock can find while a sampler pass runs: one per release of the
    domain's mutex. *)
Definition isMutex (mu : Mutex) (r : Mutex * Globals) : bool :=
  match mu, fst r with
  | WifiMu, WifiMu | BtMu, BtMu | BleMu, BleMu | RadioMu, RadioMu
  | NetMu, NetMu | StatusMu, StatusMu | AttackMu, AttackMu => true
  | _, _ => false
  end.

Definition observableBt (m : Machine) : list (list BluetoothDevice) :=
  map (fun r => BtDevices (snd r)) (filter (fun r => isMutex BtMu r = true) (released m)).

Definition observableBle (m : Machine) : list (list BLEDevice) :=
  map (fun r => BleDevices (snd r)) (filter (fun r => isMutex BleMu r = true) (released m)).

Definition observableWifi (m : Machine) : list (list WifiAP) :=
  map (fun r => WifiAPs (snd r)) (filter (fun r => isMutex WifiMu r = true) (released m)).

(** A host on which every command prints [out] and exits with status 0. *)
Definition printing (out : string) : World :=
  steady {| lookPath := fun file => Some ("/usr/bin/" +:+ file);
            process := fun _ => exited out None;
            clock := epoch;
            rank := fun _ => 0 |}.

(** A ping summary line without its [=] sign. *)
Definition pingNoEquals : string :=
  "3 packets transmitted, 3 received, 0% packet loss" +:+ NL +:+
  "rtt min/avg/max/mdev 10.1/12.3/15.0/1.2 ms" +:+ NL.

Definition pingUsual : string :=
  "3 packets transmitted, 3 received, 0% packet loss" +:+ NL +:+
  "rtt min/avg/max/mdev = 10.1/12.3/15.0/1.2 ms" +:+ NL.

(** What [hcitool scan] prints for two devices in range. *)
Definition hcitoolTwo : string :=
  "Scanning ..." +:+ NL +:+
  TAB +:+ "AA:BB:CC:DD:EE:01" +:+ TAB +:+ "Phone" +:+ NL +:+
  TAB +:+ "AA:BB:CC:DD:EE:02" +:+ TAB +:+ "Laptop" +:+ NL.

(** Lines of the shape the BLE loop keeps: a first field ending in a colon. *)
Definition lescanTwo : string :=
  "LE Scan ..." +:+ NL +:+
  "AA:BB:CC:DD:EE:01: Apple tag" +:+ NL +:+
  "AA:BB:CC:DD:EE:02: band" +:+ NL.

Definition headset : BluetoothDevice :=
  {| Address := "11:22:33:44:55:66"; Name := "Headset" |}.

Definition beacon : BLEDevice :=
  {| BLEAddress := "11:22:33:44:55:66:"; Data := "beacon"; RSSI := 0%Z |}.

(** A process whose previous passes found [headset] and [beacon]. *)
Definition seeded (w : World) : Machine :=
  {| globals := setBleDevices [beacon] (setBtDevices [headset] zeroGlobals);
     world := w; released := [] |}.

(** A host on which the first attempt of any command is refused, [sudo] is
    installed, and every later attempt prints [out] and succeeds. *)
Definition needsRoot (out : string) : World :=
  {| script := fun n =>
       {| lookPath := fun file => Some ("/usr/bin/" +:+ file);
          process := fun _ =>
            if n =? 0
            then exited "Can't init device hci0: Operation not permitted (1)"
                   (Some "exit status 1")
            else exited out None;
          clock := epoch;
          rank := fun _ => 0 |};
     ticks := 0; spawned := [] |}.

(** An indicator phrase of the fixed set or of the caller's occurs in the
    text. *)
Definition indicated (errorStr : string) (patterns : list string) : Prop :=
  exists indicator,
    In indicator (sudoIndicators ++ patterns) /\ Contains errorStr indicator = true.

(** ** The blocker's operations as one family *)

(** The three blocked-address maps of [b'] are those of [b]. *)
Definition sameBlocks (b b' : Blocker) : Prop :=
  blockedIPs b' = blockedIPs b /\
  blockedMACs b' = blockedMACs b /\
  blockedBTAddrs b' = blockedBTAddrs b.

(** The calls of the write surface that return an [error]. *)
Inductive Mutation : Type :=
  | DoBlockIP (ip reason : string)
  | DoUnblockIP (ip : string)
  | DoBlockMAC (mac reason : string)
  | DoUnblockMAC (mac : string)
  | DoBlockBluetoothDevice (btAddr reason : string)
  | DoUnblockBluetoothDevice (btAddr : string)
  | DoDeauthWiFiClient (clientMAC apMAC reason : string)
  | DoBlockWiFiAccessPoint (apMAC reason : string)
  | DoAutoBlockAttack (attack : Attack).

Definition perform (mu : Mutation) (b : Blocker) : Method :=
  match mu with
  | DoBlockIP ip reason => BlockIP b ip reason
  | DoUnblockIP ip => UnblockIP b ip
  | DoBlockMAC mac reason => BlockMAC b mac reason
  | DoUnblockMAC mac => UnblockMAC b mac
  | DoBlockBluetoothDevice btAddr reason => BlockBluetoothDevice b btAddr reason
  | DoUnblockBluetoothDevice btAddr => UnblockBluetoothDevice b btAddr
  | DoDeauthWiFiClient clientMAC apMAC reason => DeauthWiFiClient b clientMAC apMAC reason
  | DoBlockWiFiAccessPoint apMAC reason => BlockWiFiAccessPoint b apMAC reason
  | DoAutoBlockAttack attack => AutoBlockAttack b attack
  end.

(** The address of a block call is already blocked, that of an unblock call
    is not blocked. *)
Definition alreadyThere (mu : Mutation) (b : Blocker) : Prop :=
  match mu with
  | DoBlockIP ip _ => is_Some (blockedIPs b !! ip)
  | DoUnblockIP ip => blockedIPs b !! ip = None
  | DoBlockMAC mac _ => is_Some (blockedMACs b !! mac)
  | DoUnblockMAC mac => blockedMACs b !! mac = None
  | DoBlockBluetoothDevice btAddr _ => is_Some (blockedBTAddrs b !! btAddr)
  | DoUnblockBluetoothDevice btAddr => blockedBTAddrs b !! btAddr = None
  | DoDeauthWiFiClient _ _ _ | DoBlockWiFiAccessPoint _ _ | DoAutoBlockAttack _ => False
  end.

(** The entries of a blocked-address map recorded for one address. *)
Definition entriesFor (addr : string) (m : gmap string Time) : list (string * Time) :=
  filter (fun kv => fst kv = addr) (map_to_list m).

(** The error an operation returns on host [w], and the blocker it leaves. *)
Definition errorOf (op : Method) (w : World) : option string := snd (valueOf op w).
Definition blockerAfter (op : Method) (w : World) : Blocker := fst (valueOf op w).

(** A host with ufw installed on which every command succeeds; the clock
    reads [t]. *)
Definition withUfw (t : Time) : World :=
  steady {| lookPath := fun file =>
              if String.eqb file "ufw" then Some "/usr/sbin/ufw" else None;
            process := fun _ => exited EmptyString None;
            clock := {| instant := t; dateTime := "2024-01-01 00:00:00";
                        hms := "00:00:00" |};
            rank := fun _ => 0 |}.

(** A host on which rfkill is installed and fails. *)
Definition rfkillFails : World :=
  steady {| lookPath := fun file =>
              if String.eqb file "rfkill" then Some "/usr/sbin/rfkill" else None;
            process := fun _ => exited EmptyString (Some "exit status 1");
            clock := epoch;
            rank := fun _ => 0 |}.

Definition intruder : Attack :=
  {| Type_ := "UNKNOWN_DEVICE"; Severity := "High";
     Description := "Unknown device on the network"; Target := "192.168.1.50";
     Timestamp := 0%Z |}.

Definition spoofer : Attack :=
  {| Type_ := "BLUETOOTH_SPOOFING"; Severity := "High";
     Description := "Suspicious Bluetooth device name: hack (AA:BB:CC:DD:EE:01)";
     Target := "AA:BB:CC:DD:EE:01"; Timestamp := 0%Z |}.

(** ** Findings without their timestamps *)

Record Finding : Type := {
  fType : string;
  fSeverity : string;
  fDescription : string;
  fTarget : string;
}.

Definition erase (a : Attack) : Finding :=
  {| fType := Type_ a; fSeverity := Severity a; fDescription := Description a;
     fTarget := Target a |}.

(** The findings of one call, timestamps left out. *)
Definition findingsOf (call : St World (list Attack)) (w : World) : list Finding :=
  map erase (valueOf call w).

Definition ofType (ty : string) (fs : list Finding) : list Finding :=
  filter (fun f => fType f = ty) fs.

(** The BSSIDs of the access points of a sample that carry [ssid], one per
    access point. *)
Definition bssidsOf (ssid : string) (devices : list WifiAP) : list string :=
  map BSSID (filter (fun d => ESSID d = ssid) devices).

Definition accessPoint (ssid bssid : string) : WifiAP :=
  {| BSSID := bssid; PWR := (-50)%Z; Beacons := 10%Z; ENC := "WPA2"; ESSID := ssid |}.

(** The sample of the specification, and one in which the same access point
    is listed twice. *)
Definition homeOffice : list WifiAP :=
  [accessPoint "Home" "AA:AA"; accessPoint "Home" "BB:BB"; accessPoint "Office" "CC:CC"].

Definition homeTwice : list WifiAP :=
  [accessPoint "Home" "AA:AA"; accessPoint "Home" "AA:AA"].

(** The order in which the next [range] over [m] on host [w] visits the
    keys. *)
Definition rangeOrder {V : Type} (w : World) (m : gmap string V) : list string :=
  merge_sort (rankLe (script w (ticks w))) (map fst (map_to_list m)).

(** What each loop body adds to the findings, timestamps left out. *)
Definition evilTwinFor (ssidCounts : gmap string (list string)) (ssid : string)
  : list Finding :=
  let bssids := default [] (ssidCounts !! ssid) in
  if 1 <? length bssids
  then [{| fType := "EVIL_TWIN"; fSeverity := "High";
           fDescription := "Potential evil twin attack: SSID '" +:+ ssid +:+ "' appears "
                           +:+ itoa (length bssids) +:+ " times";
           fTarget := ssid |}]
  else [].

Definition rogueFor (device : WifiAP) : list Finding :=
  match find (Contains (ToLower (ESSID device))) roguePatterns with
  | Some _ =>
      [{| fType := "ROGUE_AP"; fSeverity := "High";
          fDescription := "Potentially rogue access point detected: " +:+ ESSID device;
          fTarget := ESSID device |}]
  | None => []
  end.

Definition weakFor (device : WifiAP) : list Finding :=
  if Contains (ToLower (ENC device)) "wep"
  then [{| fType := "WEAK_ENCRYPTION"; fSeverity := "High";
           fDescription := "Weak encryption (WEP) detected on network: " +:+ ESSID device;
           fTarget := ESSID device |}]
  else [].

(** A finding without its timestamp and, for a BLUETOOTH_MITM finding,
    without its description (which names the pattern the range met first). *)
Definition blur (a : Attack) : Finding :=
  if String.eqb (Type_ a) "BLUETOOTH_MITM"
  then {| fType := Type_ a; fSeverity := Severity a; fDescription := EmptyString;
          fTarget := Target a |}
  else erase a.

Definition massScanFor (devices : list BluetoothDevice) : list Finding :=
  if 20 <? length devices
  then [{| fType := "BLUETOOTH_MASS_SCANNING"; fSeverity := "Medium";
           fDescription := "Mass scanning detected: " +:+ itoa (length devices)
                           +:+ " Bluetooth devices found (unusual activity)";
           fTarget := "bluetooth_network" |}]
  else [].

Definition spoofFor (device : BluetoothDevice) : list Finding :=
  match find (Contains (ToLower (Name device))) suspiciousNames with
  | Some _ =>
      [{| fType := "BLUETOOTH_SPOOFING"; fSeverity := "High";
          fDescription := "Suspicious Bluetooth device name: " +:+ Name device
                          +:+ " (" +:+ Address device +:+ ")";
          fTarget := Address device |}]
  | None => []
  end.

Definition mitmFor (device : BluetoothDevice) : list Finding :=
  if existsb (Contains (ToLower (Name device))) (map fst (map_to_list mitmPatterns))
  then [{| fType := "BLUETOOTH_MITM"; fSeverity := "High";
           fDescription := EmptyString; fTarget := Address device |}]
  else [].

Definition portFor (outputStr port : string) : list Finding :=
  if Contains outputStr port && Contains outputStr "open"
  then [{| fType := "SUSPICIOUS_PORT"; fSeverity := "Medium";
           fDescription := "Suspicious open port detected: " +:+ port +:+ " ("
                           +:+ default EmptyString (dangerousPorts !! port) +:+ ")";
           fTarget := "network" |}]
  else [].

(** A host without tools whose runtime ranges over maps by [r]. *)
Definition ranging (r : string -> nat) : World :=
  steady {| lookPath := fun _ => None;
            process := fun _ => exited EmptyString (Some "executable file not found in $PATH");
            clock := epoch;
            rank := r |}.

Definition shortestFirst (s : string) : nat := String.length s.
Definition longestFirst (s : string) : nat := 100 - String.length s.

Definition nmapReport : string :=
  "Nmap scan report for 192.168.1.7" +:+ NL +:+
  "PORT   STATE SERVICE" +:+ NL +:+
  "21/tcp open  ftp" +:+ NL.

Definition relay : BluetoothDevice :=
  {| Address := "AA:BB:CC:DD:EE:03"; Name := "Proxy-Gateway" |}.

Definition twoTwins : list WifiAP :=
  [accessPoint "Cafe" "AA:AA"; accessPoint "Cafe" "BB:BB";
   accessPoint "Library" "CC:CC"; accessPoint "Library" "DD:DD"].

(** The health record of a domain, when it exists. *)
Definition svcOf (key : string) (m : Machine) : option ServiceStatus :=
  ServiceStatuses (globals m) !! key.

(** ** What a finding is about *)

(** Type, severity and target of a finding. *)
Definition headline (a : Attack) : string * string * string :=
  (Type_ a, Severity a, Target a).

Definition headlineOf (f : Finding) : string * string * string :=
  (fType f, fSeverity f, fTarget f).

(** ** The tool a firewall call settles on *)

Definition found (p : option string) : bool :=
  match p with Some _ => true | None => false end.

(** The first of ufw, firewall-cmd and iptables that the host has, each
    looked up only when the ones before it are missing. *)
Definition firewallTool (w : World) : option string :=
  if found (lookPath (script w (ticks w)) "ufw") then Some "ufw"
  else if found (lookPath (script w (S (ticks w))) "firewall-cmd") then Some "firewall-cmd"
  else if found (lookPath (script w (S (S (ticks w)))) "iptables") then Some "iptables"
  else None.

(** The command lines started by a call of the blocker on host [w]: what
    [spawned] holds afterwards beyond what it held before. *)
Definition startedBy (op : Method) (w : World) : list (list string) :=
  drop (length (spawned w)) (spawned (stateAfter op w)).

(** A host without ufw and firewalld, with iptables, on which every command
    succeeds. *)
Definition withIptables : World :=
  steady {| lookPath := fun file =>
              if String.eqb file "iptables" then Some "/usr/sbin/iptables" else None;
            process := fun _ => exited EmptyString None;
            clock := epoch;
            rank := fun _ => 0 |}.

(** A host with every tool installed on which ebtables fails and every
    other command succeeds. *)
Definition ebtablesBroken : World :=
  steady {| lookPath := fun file => Some ("/usr/sbin/" +:+ file);
            process := fun argv =>
              if existsb (String.eqb "ebtables") argv
              then exited "ebtables: Operation not supported" (Some "exit status 1")
              else exited EmptyString None;
            clock := epoch;
            rank := fun _ => 0 |}.

(** What iwconfig prints for one interface in monitor mode. *)
Definition iwconfigMonitor : string :=
  "lo        no wireless extensions." +:+ NL +:+
  "wlan0mon  IEEE 802.11  Mode:Monitor  Frequency:2.437 GHz" +:+ NL.

(** * Properties *)

(** ** Go's [strings] functions on sample inputs *)

Example Split_lines :
  Split ("a" +:+ NL +:+ NL +:+ "b") NL = ["a"; EmptyString; "b"].
Proof. reflexivity. Qed.

Example Split_multi : Split "x: Mode:Monitor y Mode:" "Mode:" = ["x: "; "Monitor y "; EmptyString].
Proof. reflexivity. Qed.

Example Split_empty : Split EmptyString "/" = [EmptyString].
Proof. reflexivity. Qed.

Example SplitN_eq : SplitN "a = b = c" "=" 2 = ["a "; " b = c"].
Proof. reflexivity. Qed.

Example SplitN_none : SplitN "abc" "=" 2 = ["abc"].
Proof. reflexivity. Qed.

Example Fields_tabs :
  Fields ("  AA:BB" +:+ TAB +:+ "My  Phone ") = ["AA:BB"; "My"; "Phone"].
Proof. reflexivity. Qed.

Example TrimSpace_both : TrimSpace (TAB +:+ " a b " +:+ NL) = "a b".
Proof. reflexivity. Qed.

Example TrimSuffix_colon : TrimSuffix "wlan0:" ":" = "wlan0".
Proof. reflexivity. Qed.

Example Atoi_neg : Atoi "-67.00" = 0%Z /\ Atoi "-67" = (-67)%Z /\ Atoi "+" = 0%Z.
Proof. repeat split; reflexivity. Qed.

Example itoa_21 : itoa 21 = "21".
Proof. reflexivity. Qed.

Lemma bind_run {S A B : Type} (m : St S A) (k : A -> St S B) (s : S) :
  bind m k s = k (fst (m s)) (snd (m s)).
Proof. unfold bind. destruct (m s); reflexivity. Qed.

(** ** Findings log *)

Section FindingsLog.

Lemma keepLast_length {A : Type} (n : nat) (l : list A) :
  length (keepLast n l) = Nat.min n (length l).
Proof. unfold keepLast. rewrite length_drop. lia. Qed.

Lemma keepLast_short {A : Type} (n : nat) (l : list A) :
  length l <= n -> keepLast n l = l.
Proof.
  intros Hle. unfold keepLast.
  replace (length l - n) with 0 by lia. reflexivity.
Qed.

Lemma keepLast_app {A : Type} (n : nat) (l r : list A) :
  keepLast n (keepLast n l ++ r) = keepLast n (l ++ r).
Proof.
  destruct (Nat.le_gt_cases (length l) n) as [Hle | Hgt].
  - rewrite (keepLast_short n l Hle). reflexivity.
  - unfold keepLast at 1 3.
    rewrite !length_app, keepLast_length.
    replace (Nat.min n (length l)) with n by lia.
    unfold keepLast.
    destruct (Nat.le_gt_cases (length r) n) as [Hr | Hr].
    + rewrite (drop_app_le (drop _ l)) by (rewrite length_drop; lia).
      rewrite (drop_app_le l) by lia.
      rewrite drop_drop. f_equal. f_equal. lia.
    + rewrite (drop_app_ge (drop _ l)) by (rewrite length_drop; lia).
      rewrite (drop_app_ge l) by lia.
      rewrite length_drop. f_equal. lia.
Qed.

Lemma AddAttack_log (m : Machine) (a : Attack) :
  Attacks (globals (stateAfter (AddAttack a) m))
  = keepLast 1000 (Attacks (globals m) ++ [a]).
Proof.
  unfold stateAfter, AddAttack, locked, unlock, modifyG, getG, bind, ret.
  cbn [fst snd globals setAttacks Attacks].
  destruct (Nat.ltb_spec 1000 (length (Attacks (globals m) ++ [a]))) as [Hlt | Hle];
    cbn [fst snd globals setAttacks Attacks].
  - reflexivity.
  - symmetry. apply keepLast_short. exact Hle.
Qed.

Lemma AddAttacks_cons (m : Machine) (a : Attack) (fs : list Attack) :
  stateAfter (AddAttacks (a :: fs)) m
  = stateAfter (AddAttacks fs) (stateAfter (AddAttack a) m).
Proof.
  unfold stateAfter, AddAttacks. cbn [forEach]. rewrite bind_run.
  destruct (fst (AddAttack a m)). reflexivity.
Qed.

Lemma AddAttacks_log (fs : list Attack) :
  forall m : Machine,
    length (Attacks (globals m)) <= 1000 ->
    Attacks (globals (stateAfter (AddAttacks fs) m))
    = keepLast 1000 (Attacks (globals m) ++ fs).
Proof.
  induction fs as [| a fs IH]; intros m Hm.
  - rewrite app_nil_r, keepLast_short by exact Hm. reflexivity.
  - rewrite AddAttacks_cons, IH, AddAttack_log.
    + rewrite keepLast_app, <- app_assoc. reflexivity.
    + rewrite AddAttack_log, keepLast_length. lia.
Qed.

End FindingsLog.

(** C1. Whatever is appended to a findings log of at most 1000 entries
    (the empty log of a fresh process in particular), the log keeps at most
    1000 entries, namely the most recent ones in arrival order; after 1001
    appends to the empty log it is the findings 1 to 1000: the oldest one
    is gone. *)
Theorem findings_log_bounded_fifo :
  forall (m : Machine) (findings : list Attack),
    length (Attacks (globals m)) <= 1000 ->
    let log := Attacks (globals (stateAfter (AddAttacks findings) m)) in
    length log <= 1000 /\
    log = keepLast 1000 (Attacks (globals m) ++ findings) /\
    (Attacks (globals m) = [] -> length findings = 1001 -> log = drop 1 findings).
Proof.
  intros m findings Hm log.
  assert (Hlog : log = keepLast 1000 (Attacks (globals m) ++ findings))
    by (apply AddAttacks_log; exact Hm).
  split; [| split].
  - rewrite Hlog, keepLast_length. lia.
  - exact Hlog.
  - intros Hnil Hlen. rewrite Hlog, Hnil. unfold keepLast. cbn [app].
    rewrite Hlen. reflexivity.
Qed.

Lemma findings_log_bounded_fifo_witness :
  length (Attacks (globals (boot bareHost))) <= 1000 /\
  length (sampleFindings 1001) = 1001 /\
  Attacks (globals (stateAfter (AddAttacks (sampleFindings 1001)) (boot bareHost)))
  = drop 1 (sampleFindings 1001).
Proof.
  split; [cbn; lia |]. split; [reflexivity |].
  apply (findings_log_bounded_fifo (boot bareHost) (sampleFindings 1001));
    [cbn; lia | reflexivity | reflexivity].
Defined.

(** ** Recent events of the health records *)

(** *** Sequencing, and the parts of the state a step leaves alone *)

Lemma stateAfter_bind {S A B : Type} (m : St S A) (k : A -> St S B) (s : S) :
  stateAfter (bind m k) s = stateAfter (k (valueOf m s)) (stateAfter m s).
Proof. unfold stateAfter, valueOf. rewrite bind_run. reflexivity. Qed.

Lemma valueOf_bind {S A B : Type} (m : St S A) (k : A -> St S B) (s : S) :
  valueOf (bind m k) s = valueOf (k (valueOf m s)) (stateAfter m s).
Proof. unfold stateAfter, valueOf. rewrite bind_run. reflexivity. Qed.

Lemma stateAfter_ret {S A : Type} (a : A) (s : S) : stateAfter (ret a) s = s.
Proof. reflexivity. Qed.

Lemma globals_locked {A : Type} (mu : Mutex) (body : Proc A) (m : Machine) :
  globals (stateAfter (locked mu body) m) = globals (stateAfter body m).
Proof.
  unfold locked. rewrite !stateAfter_bind. reflexivity.
Qed.

Lemma valueOf_locked {A : Type} (mu : Mutex) (body : Proc A) (m : Machine) :
  valueOf (locked mu body) m = valueOf body m.
Proof.
  unfold locked. rewrite !valueOf_bind. reflexivity.
Qed.

Lemma globals_host {A : Type} (io : St World A) (m : Machine) :
  globals (stateAfter (host io) m) = globals m.
Proof. unfold stateAfter, host. destruct (io (world m)). reflexivity. Qed.

Lemma logOf_globals (key : string) (m m' : Machine) :
  globals m' = globals m -> logOf key m' = logOf key m.
Proof. unfold logOf. intros ->. reflexivity. Qed.

(** The trimming step leaves at most ten recent events, whatever it finds. *)
Lemma trimLogEntries_cap (key : string) (m : Machine) :
  length (logOf key (stateAfter (trimLogEntries key) m)) <= 10.
Proof.
  unfold logOf, trimLogEntries, updStatus, modifyG, stateAfter.
  cbn [snd globals ServiceStatuses setServiceStatuses].
  rewrite lookup_alter_eq.
  destruct (ServiceStatuses (globals m) !! key) as [s |]; [| cbn; lia].
  cbn [fmap option_fmap option_map].
  destruct (Nat.ltb_spec 10 (length (LogEntries s))) as [Hlt | Hle];
    cbn [LogEntries withLogEntries].
  - rewrite length_drop. lia.
  - exact Hle.
Qed.

(** A critical section that ends with the trimming step. *)
Lemma trimmed_section_cap {A : Type} (key : string) (before : Proc A) (m : Machine) :
  length (logOf key (stateAfter (locked StatusMu (before ;; trimLogEntries key)) m)) <= 10.
Proof.
  rewrite (logOf_globals key _ _ (globals_locked _ _ _)), stateAfter_bind.
  apply trimLogEntries_cap.
Qed.

Lemma logOf_statuses (key : string) (m m' : Machine) :
  ServiceStatuses (globals m') = ServiceStatuses (globals m) -> logOf key m' = logOf key m.
Proof. unfold logOf. intros ->. reflexivity. Qed.

Lemma logOf_setNetworkInfo (key : string) (v : NetworkInfo) (m : Machine) :
  logOf key (stateAfter (locked NetMu (modifyG (setNetworkInfo v))) m) = logOf key m.
Proof. reflexivity. Qed.

Ltac ends_with_trim :=
  rewrite (logOf_globals _ _ _ (globals_locked _ _ _));
  rewrite !stateAfter_bind;
  apply trimLogEntries_cap.

(** A pass of the network sampler that returns leaves at most ten recent
    events in its record, whatever the record held before. *)
Lemma MonitorNetwork_cap (m : Machine) :
  valueOf MonitorNetwork m = Returned ->
  length (logOf "network" (stateAfter MonitorNetwork m)) <= 10.
Proof.
  unfold MonitorNetwork. rewrite stateAfter_bind, valueOf_bind.
  set (m1 := stateAfter (ensureStatus "network" "Network Monitoring") m).
  rewrite stateAfter_bind, valueOf_bind.
  set (m2 := stateAfter (host (Output pingCmd)) m1).
  destruct (valueOf (host (Output pingCmd)) m1) as [output [e |]].
  - intros _. rewrite !stateAfter_bind, stateAfter_ret.
    rewrite logOf_setNetworkInfo. ends_with_trim.
  - destruct (rttMinOf (Split output NL)) as [rttMin |]; [| discriminate].
    intros _. rewrite !stateAfter_bind, stateAfter_ret.
    rewrite logOf_setNetworkInfo. ends_with_trim.
Qed.

(** *** The Wi-Fi sampler appends without trimming *)

Lemma logOf_svcOf (key : string) (m : Machine) :
  logOf key m = match svcOf key m with Some s => LogEntries s | None => [] end.
Proof. reflexivity. Qed.

Lemma svcOf_updStatus (key : string) (f : ServiceStatus -> ServiceStatus) (m : Machine) :
  svcOf key (stateAfter (updStatus key f) m) = f <$> svcOf key m.
Proof. unfold svcOf, updStatus, modifyG, stateAfter. cbn. apply lookup_alter_eq. Qed.

Lemma svcOf_host {A : Type} (key : string) (io : St World A) (m : Machine) :
  svcOf key (stateAfter (host io) m) = svcOf key m.
Proof. unfold svcOf. rewrite globals_host. reflexivity. Qed.

Lemma svcOf_locked {A : Type} (key : string) (mu : Mutex) (body : Proc A) (m : Machine) :
  svcOf key (stateAfter (locked mu body) m) = svcOf key (stateAfter body m).
Proof. unfold svcOf. rewrite globals_locked. reflexivity. Qed.

(** After the opening critical section the record exists, with the recent
    events it had. *)
Lemma ensureStatus_log (key name : string) (m : Machine) :
  exists s, svcOf key (stateAfter (ensureStatus key name) m) = Some s /\
            LogEntries s = logOf key m.
Proof.
  unfold ensureStatus. rewrite svcOf_locked, stateAfter_bind, logOf_svcOf.
  change (valueOf getG m) with (globals m).
  change (stateAfter getG m) with m.
  unfold svcOf at 2.
  destruct (ServiceStatuses (globals m) !! key) as [s |] eqn:Hs.
  - exists s. split; [exact Hs | reflexivity].
  - rewrite stateAfter_bind. eexists.
    split; [unfold svcOf, modifyG, stateAfter; cbn; apply lookup_insert_eq | reflexivity].
Qed.

(** On a host where airodump-ng cannot be found, a pass of the Wi-Fi
    sampler adds one recent event to its record and removes none, whatever
    the record holds. *)
Lemma MonitorWifi_appends (m : Machine) :
  let m1 := stateAfter (ensureStatus "wifi" "WiFi Monitoring") m in
  lookPath (script (world m1) (ticks (world m1))) "airodump-ng" = None ->
  exists event, logOf "wifi" (stateAfter MonitorWifi m) = logOf "wifi" m ++ [event].
Proof.
  intros m1 Hmissing. unfold MonitorWifi.
  rewrite stateAfter_bind. fold m1. rewrite stateAfter_bind.
  assert (Hlook : valueOf (host (LookPath "airodump-ng")) m1 = None)
    by (rewrite <- Hmissing; reflexivity).
  rewrite Hlook.
  destruct (ensureStatus_log "wifi" "WiFi Monitoring" m) as [s [Hs Hlog]]. fold m1 in Hs.
  rewrite logOf_svcOf, svcOf_locked. rewrite !stateAfter_bind.
  unfold appendLogEntry, assignLastUpdate, assignErrorMsg, assignStatus.
  rewrite !stateAfter_bind, !svcOf_updStatus, !svcOf_host, !svcOf_updStatus,
    !svcOf_host, !svcOf_updStatus, !svcOf_host, Hs.
  cbn [fmap option_fmap option_map LogEntries withLogEntries withLastUpdate
       withErrorMsg withStatus].
  rewrite Hlog. eexists; reflexivity.
Qed.

(** C4. On a host without airodump-ng, eleven passes of the Wi-Fi sampler
    leave eleven recent events in the Wi-Fi health record: that path appends
    and returns without the trimming step of the other samplers, so the cap
    of 10 is exceeded and the oldest event is still there. *)
Theorem wifi_recent_events_exceed_ten :
  let m := stateAfter (passes 11 MonitorWifi) (boot bareHost) in
  length (logOf "wifi" m) = 11 /\
  logOf "wifi" m = repeat "[00:00:00] airodump-ng not found" 11.
Proof. vm_compute. split; reflexivity. Qed.

(** ** Network sampler *)

(** *** The ping summary line *)

Lemma append_empty_r (s : string) : s +:+ EmptyString = s.
Proof.
  induction s as [| c s IH]; [reflexivity |].
  change (String c s +:+ EmptyString) with (String c (s +:+ EmptyString)).
  rewrite IH. reflexivity.
Qed.

Lemma snoc_append (cur : string) (c : ascii) (s : string) :
  snoc cur c +:+ s = cur +:+ String c s.
Proof.
  unfold snoc. induction cur as [| a cur IH]; [reflexivity |].
  change (String a cur +:+ String c EmptyString)
    with (String a (cur +:+ String c EmptyString)).
  change (String a (cur +:+ String c EmptyString) +:+ s)
    with (String a ((cur +:+ String c EmptyString) +:+ s)).
  rewrite IH. reflexivity.
Qed.

(** With no cut left, the rest of the string is one piece. *)
Lemma genSplit_nocut (sep s : string) :
  forall cur, genSplit sep 0 0 cur s = [cur +:+ s].
Proof.
  induction s as [| c s IH]; intros cur; cbn [genSplit].
  - rewrite append_empty_r. reflexivity.
  - rewrite IH, snoc_append. reflexivity.
Qed.

Lemma HasPrefix_empty (s : string) : HasPrefix s EmptyString = true.
Proof. destruct s; reflexivity. Qed.

(** [SplitN(line, "=", 2)] has a second element exactly when the line holds
    an [=]. *)
Lemma SplitN_second (s : string) :
  forall cur, is_Some (genSplit "=" 1 0 cur s !! 1) <-> Contains s "=" = true.
Proof.
  induction s as [| c s IH]; intros cur.
  - cbn. split; [intros [x Hx]; discriminate | discriminate].
  - cbn [genSplit Contains HasPrefix]. rewrite HasPrefix_empty.
    destruct (Ascii.eqb "=" c); cbn [andb orb String.length Nat.sub].
    + rewrite genSplit_nocut. cbn. split; [reflexivity | eexists; reflexivity].
    + apply IH.
Qed.

(** The loop over the lines goes wrong exactly when the first line that
    carries the marker has no [=]; without any marker line it leaves the
    empty string, from which the latency is "Unknown". *)
Lemma rttMinOf_spec (lines : list string) :
  match find (fun line => Contains line "rtt min/avg/max/mdev") lines with
  | None => rttMinOf lines = Some EmptyString
  | Some line =>
      if Contains line "=" then is_Some (rttMinOf lines) else rttMinOf lines = None
  end.
Proof.
  unfold rttMinOf.
  destruct (find _ lines) as [line |]; [| reflexivity].
  pose proof (SplitN_second line EmptyString) as Hsecond.
  unfold SplitN. destruct (genSplit "=" 1 0 EmptyString line !! 1) as [piece |].
  - rewrite (proj1 Hsecond) by (eexists; reflexivity). eexists; reflexivity.
  - destruct (Contains line "="); [| reflexivity].
    destruct (proj2 Hsecond eq_refl) as [x Hx]. discriminate.
Qed.

Lemma rttAvgOf_empty : rttAvgOf EmptyString = "Unknown".
Proof. reflexivity. Qed.

(** What a pass of the network sampler does, by the answer of ping: offline
    with latency "N/A" when ping fails; online with the latency read from
    the summary when ping succeeds and the loop over the lines goes through;
    a panic that leaves the package variables as they were otherwise. *)
Lemma MonitorNetwork_outcome (m : Machine) :
  let m1 := stateAfter (ensureStatus "network" "Network Monitoring") m in
  let ping := process (script (world m1) (ticks (world m1))) pingCmd in
  let m' := stateAfter MonitorNetwork m in
  match exitErr ping with
  | Some _ =>
      valueOf MonitorNetwork m = Returned /\
      NetworkInfoVar (globals m') = {| Online := false; AvgLatency := "N/A" |}
  | None =>
      match rttMinOf (Split (stdout ping) NL) with
      | Some rttMin =>
          valueOf MonitorNetwork m = Returned /\
          NetworkInfoVar (globals m')
          = {| Online := true; AvgLatency := rttAvgOf rttMin |}
      | None =>
          valueOf MonitorNetwork m = Panicked "index out of range [1] with length 1" /\
          globals m' = globals m1
      end
  end.
Proof.
  intros m1 ping m'. subst m' ping.
  unfold MonitorNetwork. rewrite stateAfter_bind, valueOf_bind. fold m1.
  rewrite stateAfter_bind, valueOf_bind.
  assert (Hout : valueOf (host (Output pingCmd)) m1
                 = (stdout (process (script (world m1) (ticks (world m1))) pingCmd),
                    exitErr (process (script (world m1) (ticks (world m1))) pingCmd)))
    by reflexivity.
  rewrite Hout.
  destruct (exitErr (process (script (world m1) (ticks (world m1))) pingCmd)) as [e |].
  - rewrite !stateAfter_bind, !valueOf_bind. split; reflexivity.
  - destruct (rttMinOf _) as [rttMin |].
    + rewrite !stateAfter_bind, !valueOf_bind. split; reflexivity.
    + split; [reflexivity |]. rewrite stateAfter_ret. apply globals_host.
Qed.

(** C9. When ping succeeds and its summary line carries the marker but no
    [=] sign, the pass does not complete: the index expression on the result
    of [SplitN] is out of range, and the latency is not set to "Unknown". *)
Theorem ping_summary_without_separator_panics :
  let m := boot (printing pingNoEquals) in
  valueOf MonitorNetwork m = Panicked "index out of range [1] with length 1" /\
  NetworkInfoVar (globals (stateAfter MonitorNetwork m)) = NetworkInfoVar zeroGlobals /\
  AvgLatency (NetworkInfoVar (globals (stateAfter MonitorNetwork m))) <> "Unknown".
Proof.
  vm_compute. split; [reflexivity |]. split; [reflexivity | discriminate].
Qed.

(** ** Replacing a domain's sample set *)

(** *** The Wi-Fi samples are replaced in one critical section *)

Lemma released_locked {A : Type} (mu : Mutex) (body : Proc A) (m : Machine) :
  released (stateAfter (locked mu body) m)
  = released (stateAfter body m) ++ [(mu, globals (stateAfter body m))].
Proof. unfold locked. rewrite !stateAfter_bind. reflexivity. Qed.

Lemma observableWifi_status {A : Type} (body : Proc A) (m : Machine) :
  observableWifi (stateAfter (locked StatusMu body) m)
  = observableWifi (stateAfter body m).
Proof.
  unfold observableWifi. rewrite released_locked, filter_app.
  rewrite (filter_cons_False _ (StatusMu, _)) by discriminate.
  rewrite filter_nil, app_nil_r. reflexivity.
Qed.

Lemma observableWifi_wifi {A : Type} (body : Proc A) (m : Machine) :
  observableWifi (stateAfter (locked WifiMu body) m)
  = observableWifi (stateAfter body m) ++ [WifiAPs (globals (stateAfter body m))].
Proof.
  unfold observableWifi. rewrite released_locked, filter_app.
  rewrite (filter_cons_True _ (WifiMu, _)) by reflexivity.
  rewrite filter_nil, List.map_app. reflexivity.
Qed.

Lemma observableWifi_released (m m' : Machine) :
  released m' = released m -> observableWifi m' = observableWifi m.
Proof. unfold observableWifi. intros ->. reflexivity. Qed.

(** A pass of [fallbackScanWifi] shows readers at most one new value of
    [WifiAPs], and that value is the complete new sample. *)
Lemma fallbackScanWifi_whole_sets (m : Machine) :
  let m' := stateAfter fallbackScanWifi m in
  observableWifi m' = observableWifi m \/
  observableWifi m' = observableWifi m ++ [WifiAPs (globals m')].
Proof.
  intros m'. subst m'. unfold fallbackScanWifi.
  rewrite stateAfter_bind.
  set (m1 := stateAfter (host getWifiInterfaces) m).
  assert (Hm1 : observableWifi m1 = observableWifi m).
  { apply observableWifi_released. subst m1. unfold stateAfter, host.
    destruct (getWifiInterfaces (world m)). reflexivity. }
  destruct (valueOf (host getWifiInterfaces) m) as [interfaces [e |]].
  - left. rewrite observableWifi_status, <- Hm1.
    apply observableWifi_released. reflexivity.
  - destruct interfaces as [| iface rest].
    + left. rewrite observableWifi_status, <- Hm1.
      apply observableWifi_released. reflexivity.
    + rewrite stateAfter_bind.
      set (scan := host (CombinedOutput ["timeout"; "8"; "iw"; "dev"; iface; "scan"])).
      set (m2 := stateAfter scan m1).
      assert (Hm2 : observableWifi m2 = observableWifi m1) by reflexivity.
      destruct (valueOf scan m1) as [output [e |]].
      * left. rewrite observableWifi_status, <- Hm1, <- Hm2.
        apply observableWifi_released. reflexivity.
      * right. rewrite stateAfter_bind, observableWifi_status.
        rewrite !stateAfter_bind.
        rewrite <- Hm1, <- Hm2.
        set (m3 := stateAfter (locked WifiMu (modifyG (setWifi (parseIwScan output) []))) m2).
        assert (Hobs : observableWifi m3 = observableWifi m2 ++ [parseIwScan output]).
        { subst m3. rewrite observableWifi_wifi. reflexivity. }
        transitivity (observableWifi m3); [apply observableWifi_released; reflexivity |].
        rewrite Hobs. reflexivity.
Qed.

(** C3. While the Bluetooth sampler replaces a sample set [headset] by the
    two devices of the scan, the lock is released after the slice is emptied
    and after each single append: a reader can find the empty set, or the
    first new device alone, which is neither the old set nor the new one.
    The BLE sampler does the same. *)
Theorem bluetooth_replacement_shows_partial_sets :
  let bt := stateAfter MonitorBluetooth (seeded (printing hcitoolTwo)) in
  let ble := stateAfter MonitorAirTag (seeded (printing lescanTwo)) in
  let phone := {| Address := "AA:BB:CC:DD:EE:01"; Name := "Phone" |} in
  let laptop := {| Address := "AA:BB:CC:DD:EE:02"; Name := "Laptop" |} in
  BtDevices (globals (seeded (printing hcitoolTwo))) = [headset] /\
  BtDevices (globals bt) = [phone; laptop] /\
  observableBt bt = [[]; [phone]; [phone; laptop]] /\
  (exists seen, In seen (observableBt bt) /\
                seen <> [headset] /\ seen <> BtDevices (globals bt)) /\
  (exists seen, In seen (observableBle ble) /\
                seen <> [beacon] /\ seen <> BleDevices (globals ble)).
Proof.
  vm_compute.
  split; [reflexivity |]. split; [reflexivity |]. split; [reflexivity |].
  split.
  - exists []. split; [left; reflexivity | split; discriminate].
  - exists []. split; [left; reflexivity | split; discriminate].
Qed.

(** ** Tool invoker *)

Ltac run_monad :=
  unfold stateAfter, valueOf, CombinedOutput, Output, Run, LookPath, Now,
    isCommandAvailable, start, answer, bind, ret;
  cbn [fst snd script ticks spawned].

Lemma indicated_existsb (errorStr : string) (patterns : list string) :
  indicated errorStr patterns
  <-> existsb (Contains errorStr) (sudoIndicators ++ patterns) = true.
Proof.
  unfold indicated. rewrite existsb_exists. reflexivity.
Qed.

(** C7. The command is run once.  When it succeeds, or fails with a text
    that holds no indicator, or holds one while sudo cannot be found, its own
    result is returned and nothing else is started.  When it fails with an
    indicator in its output or error text and sudo is found, the same
    argument list is started once more behind the sudo path and the result
    of that second run, whatever it is, is the one returned. *)
Theorem runCommandOrSudo_elevates_once :
  forall (cmd patterns : list string) (w : World),
    let first := process (script w (ticks w)) cmd in
    let sudo := lookPath (script w (S (ticks w))) "sudo" in
    let result := valueOf (runCommandOrSudo cmd patterns) w in
    let started := spawned (stateAfter (runCommandOrSudo cmd patterns) w) in
    (exitErr first = None ->
       result = (cmd, combined first, None) /\ started = spawned w ++ [cmd]) /\
    (forall e, exitErr first = Some e ->
       ~ indicated (combined first +:+ e) patterns ->
       result = (cmd, combined first, Some e) /\ started = spawned w ++ [cmd]) /\
    (forall e, exitErr first = Some e ->
       indicated (combined first +:+ e) patterns ->
       sudo = None ->
       result = (cmd, combined first, Some e) /\ started = spawned w ++ [cmd]) /\
    (forall e sudoPath, exitErr first = Some e ->
       indicated (combined first +:+ e) patterns ->
       sudo = Some sudoPath ->
       let second := process (script w (S (S (ticks w)))) (sudoPath :: cmd) in
       result = (sudoPath :: cmd, combined second, exitErr second) /\
       started = spawned w ++ [cmd; sudoPath :: cmd]).
Proof.
  intros cmd patterns w first sudo result started.
  subst first sudo result started.
  unfold runCommandOrSudo. run_monad.
  split; [| split; [| split]].
  - intros Hok. rewrite Hok. split; reflexivity.
  - intros e Herr Hnone. rewrite Herr. rewrite indicated_existsb in Hnone.
    destruct (existsb _ _); [congruence | split; reflexivity].
  - intros e Herr Hsome Hsudo. rewrite Herr.
    apply indicated_existsb in Hsome. rewrite Hsome.
    cbn [fst snd script ticks spawned]. rewrite Hsudo. split; reflexivity.
  - intros e sudoPath Herr Hsome Hsudo. rewrite Herr.
    apply indicated_existsb in Hsome. rewrite Hsome.
    cbn [fst snd script ticks spawned]. rewrite Hsudo.
    cbn [fst snd script ticks spawned]. rewrite <- app_assoc.
    split; reflexivity.
Qed.

Lemma runCommandOrSudo_elevates_once_witness :
  exitErr (process (script (needsRoot hcitoolTwo) 0) ["timeout"; "10"; "hcitool"; "scan"])
  = Some "exit status 1" /\
  indicated ("Can't init device hci0: Operation not permitted (1)" +:+ "exit status 1") [] /\
  lookPath (script (needsRoot hcitoolTwo) 1) "sudo" = Some "/usr/bin/sudo" /\
  valueOf (runCommandOrSudo ["timeout"; "10"; "hcitool"; "scan"] []) (needsRoot hcitoolTwo)
  = (["/usr/bin/sudo"; "timeout"; "10"; "hcitool"; "scan"], hcitoolTwo, None) /\
  spawned (stateAfter (runCommandOrSudo ["timeout"; "10"; "hcitool"; "scan"] [])
             (needsRoot hcitoolTwo))
  = [["timeout"; "10"; "hcitool"; "scan"];
     ["/usr/bin/sudo"; "timeout"; "10"; "hcitool"; "scan"]].
Proof.
  assert (Hind : indicated
            ("Can't init device hci0: Operation not permitted (1)" +:+ "exit status 1") []).
  { exists "Operation not permitted". split; [cbn; tauto | reflexivity]. }
  split; [reflexivity |]. split; [exact Hind |]. split; [reflexivity |].
  exact (proj2 (proj2 (proj2
           (runCommandOrSudo_elevates_once
              ["timeout"; "10"; "hcitool"; "scan"] [] (needsRoot hcitoolTwo))))
           "exit status 1" "/usr/bin/sudo" eq_refl Hind eq_refl).
Defined.

(** ** The blocker *)

Ltac run_method :=
  unfold blockMACFallback, unblockMACFallback;
  unfold finishBlockIP, finishUnblockIP, recordMAC, forgetMAC, recordBT, forgetBT,
    findMonitorInterface, exists_;
  run_monad.

Ltac split_cases :=
  repeat (match goal with
          | |- context [match ?x with _ => _ end] =>
              destruct x eqn:?; cbn [fst snd script ticks spawned negb]
          end).

Lemma sameBlocks_refl (b : Blocker) : sameBlocks b b.
Proof. repeat split. Qed.

Lemma sameBlocks_logTo (l : LogLine) (b : Blocker) : sameBlocks b (logTo l b).
Proof. repeat split. Qed.

Create HintDb blocker.
#[local] Hint Resolve sameBlocks_refl sameBlocks_logTo : blocker.

(** C10. Whatever the host answers, [DeauthWiFiClient] leaves the three
    blocked-address maps and the auto-block flag as it found them: on each
    of its four ways out (tool missing, no monitor interface, tool failure,
    success) the only thing it may do to the blocker is hand a line to the
    logger. *)
Theorem DeauthWiFiClient_frame :
  forall (b : Blocker) (clientMAC apMAC reason : string) (w : World),
    let b' := fst (valueOf (DeauthWiFiClient b clientMAC apMAC reason) w) in
    blockedIPs b' = blockedIPs b /\
    blockedMACs b' = blockedMACs b /\
    blockedBTAddrs b' = blockedBTAddrs b /\
    autoBlock b' = autoBlock b.
Proof.
  intros b clientMAC apMAC reason w. unfold DeauthWiFiClient. run_method.
  split_cases; repeat split.
Qed.

Ltac blocked_leaf :=
  cbn [fst snd] in *;
  first [ solve [auto with blocker]
        | solve [eauto]
        | match goal with
          | H : is_Some None |- _ => destruct H; discriminate
          end ].

Lemma BlockIP_conflict (b : Blocker) (ip reason : string) (w : World) :
  is_Some (blockedIPs b !! ip) ->
  BlockIP b ip reason w = ((b, Some ("IP " +:+ ip +:+ " is already blocked")), w).
Proof.
  intros [t Ht]. unfold BlockIP, exists_. rewrite Ht. reflexivity.
Qed.

Lemma UnblockIP_conflict (b : Blocker) (ip : string) (w : World) :
  blockedIPs b !! ip = None ->
  UnblockIP b ip w = ((b, Some ("IP " +:+ ip +:+ " is not blocked")), w).
Proof.
  intros Hnone. unfold UnblockIP, exists_. rewrite Hnone. reflexivity.
Qed.

Lemma BlockMAC_conflict (b : Blocker) (mac reason : string) (w : World) :
  is_Some (blockedMACs b !! mac) ->
  BlockMAC b mac reason w = ((b, Some ("MAC " +:+ mac +:+ " is already blocked")), w).
Proof.
  intros [t Ht]. unfold BlockMAC, exists_. rewrite Ht. reflexivity.
Qed.

Lemma UnblockMAC_conflict (b : Blocker) (mac : string) (w : World) :
  blockedMACs b !! mac = None ->
  UnblockMAC b mac w = ((b, Some ("MAC " +:+ mac +:+ " is not blocked")), w).
Proof.
  intros Hnone. unfold UnblockMAC, exists_. rewrite Hnone. reflexivity.
Qed.

Lemma BlockBluetoothDevice_conflict (b : Blocker) (btAddr reason : string) (w : World) :
  is_Some (blockedBTAddrs b !! btAddr) ->
  BlockBluetoothDevice b btAddr reason w
  = ((b, Some ("Bluetooth device " +:+ btAddr +:+ " is already blocked")), w).
Proof.
  intros [t Ht]. unfold BlockBluetoothDevice, exists_. rewrite Ht. reflexivity.
Qed.

Lemma UnblockBluetoothDevice_conflict (b : Blocker) (btAddr : string) (w : World) :
  blockedBTAddrs b !! btAddr = None ->
  UnblockBluetoothDevice b btAddr w
  = ((b, Some ("Bluetooth device " +:+ btAddr +:+ " is not blocked")), w).
Proof.
  intros Hnone. unfold UnblockBluetoothDevice, exists_. rewrite Hnone. reflexivity.
Qed.

Lemma BlockIP_error_frame (b : Blocker) (ip reason : string) (w : World) :
  is_Some (errorOf (BlockIP b ip reason) w) ->
  sameBlocks b (blockerAfter (BlockIP b ip reason) w).
Proof.
  unfold errorOf, blockerAfter, BlockIP. run_method.
  split_cases; intros Herr; blocked_leaf.
Qed.

Lemma UnblockIP_error_frame (b : Blocker) (ip : string) (w : World) :
  is_Some (errorOf (UnblockIP b ip) w) ->
  sameBlocks b (blockerAfter (UnblockIP b ip) w).
Proof.
  unfold errorOf, blockerAfter, UnblockIP. run_method.
  split_cases; intros Herr; blocked_leaf.
Qed.

Lemma BlockMAC_error_frame (b : Blocker) (mac reason : string) (w : World) :
  is_Some (errorOf (BlockMAC b mac reason) w) ->
  sameBlocks b (blockerAfter (BlockMAC b mac reason) w).
Proof.
  unfold errorOf, blockerAfter, BlockMAC. run_method.
  split_cases; intros Herr; blocked_leaf.
Qed.

Lemma UnblockMAC_error_frame (b : Blocker) (mac : string) (w : World) :
  is_Some (errorOf (UnblockMAC b mac) w) ->
  sameBlocks b (blockerAfter (UnblockMAC b mac) w).
Proof.
  unfold errorOf, blockerAfter, UnblockMAC. run_method.
  split_cases; intros Herr; blocked_leaf.
Qed.

Lemma BlockBluetoothDevice_error_frame (b : Blocker) (btAddr reason : string) (w : World) :
  is_Some (errorOf (BlockBluetoothDevice b btAddr reason) w) ->
  sameBlocks b (blockerAfter (BlockBluetoothDevice b btAddr reason) w).
Proof.
  unfold errorOf, blockerAfter, BlockBluetoothDevice. run_method.
  split_cases; intros Herr; blocked_leaf.
Qed.

Lemma UnblockBluetoothDevice_error_frame (b : Blocker) (btAddr : string) (w : World) :
  is_Some (errorOf (UnblockBluetoothDevice b btAddr) w) ->
  sameBlocks b (blockerAfter (UnblockBluetoothDevice b btAddr) w).
Proof.
  unfold errorOf, blockerAfter, UnblockBluetoothDevice. run_method.
  split_cases; intros Herr; blocked_leaf.
Qed.

Lemma AutoBlockAttack_error_frame (b : Blocker) (attack : Attack) (w : World) :
  is_Some (errorOf (AutoBlockAttack b attack) w) ->
  sameBlocks b (blockerAfter (AutoBlockAttack b attack) w).
Proof.
  unfold AutoBlockAttack.
  destruct (negb (autoBlock b)); [intros Herr; destruct Herr; discriminate |].
  destruct (oneOf _ _).
  - destruct (Contains _ _); [apply BlockIP_error_frame |].
    intros Herr; destruct Herr; discriminate.
  - destruct (oneOf _ _); [apply BlockBluetoothDevice_error_frame |].
    destruct (oneOf _ _); intros Herr; destruct Herr; discriminate.
Qed.

Lemma DeauthWiFiClient_sameBlocks (b : Blocker) (clientMAC apMAC reason : string)
    (w : World) :
  sameBlocks b (blockerAfter (DeauthWiFiClient b clientMAC apMAC reason) w).
Proof.
  unfold blockerAfter, DeauthWiFiClient. run_method.
  split_cases; blocked_leaf.
Qed.

Lemma filter_none {A : Type} (P : A -> Prop) `{forall x, Decision (P x)} (l : list A) :
  (forall x, x ∈ l -> ~ P x) -> filter P l = [].
Proof.
  induction l as [| a l IH]; intros Hall; [reflexivity |].
  rewrite filter_cons_False by (apply Hall; left).
  apply IH. intros x Hx. apply Hall. right. exact Hx.
Qed.

Lemma entriesFor_present (addr : string) (t : Time) (m : gmap string Time) :
  m !! addr = Some t -> entriesFor addr m = [(addr, t)].
Proof.
  intros Hin. unfold entriesFor.
  assert (Hperm : map_to_list m ≡ₚ (addr, t) :: map_to_list (delete addr m)).
  { rewrite <- (insert_delete_id m addr t Hin) at 1.
    apply map_to_list_insert, lookup_delete_eq. }
  assert (Hrest : filter (fun kv : string * Time => fst kv = addr)
                    (map_to_list (delete addr m)) = []).
  { apply filter_none. intros [k v] Hkv Hk. cbn in Hk. subst k.
    apply elem_of_map_to_list in Hkv. rewrite lookup_delete_eq in Hkv.
    discriminate. }
  apply Permutation_singleton_r.
  rewrite Hperm, filter_cons_True by reflexivity.
  rewrite Hrest. reflexivity.
Qed.

Lemma entriesFor_absent (addr : string) (m : gmap string Time) :
  m !! addr = None -> entriesFor addr m = [].
Proof.
  intros Hnone. apply filter_none. intros [k v] Hkv Hk. cbn in Hk. subst k.
  apply elem_of_map_to_list in Hkv. congruence.
Qed.

(** A call of [BlockIP] that returns no error found the address unblocked
    and recorded it, with the time read after the tool ran. *)
Lemma BlockIP_success (b : Blocker) (ip reason : string) (w : World) :
  errorOf (BlockIP b ip reason) w = None ->
  blockedIPs b !! ip = None /\
  exists t, blockedIPs (blockerAfter (BlockIP b ip reason) w) = <[ip := t]> (blockedIPs b).
Proof.
  unfold errorOf, blockerAfter, BlockIP. run_method.
  destruct (blockedIPs b !! ip) as [t0 |] eqn:Hip; cbn [fst snd];
    [discriminate |].
  split_cases; intros Herr; cbn [fst snd] in *; try discriminate;
    (split; [reflexivity | eexists; reflexivity]).
Qed.

Lemma BlockBluetoothDevice_success (b : Blocker) (btAddr reason : string) (w : World) :
  errorOf (BlockBluetoothDevice b btAddr reason) w = None ->
  blockedBTAddrs b !! btAddr = None /\
  exists t, blockedBTAddrs (blockerAfter (BlockBluetoothDevice b btAddr reason) w)
            = <[btAddr := t]> (blockedBTAddrs b).
Proof.
  unfold errorOf, blockerAfter, BlockBluetoothDevice. run_method.
  destruct (blockedBTAddrs b !! btAddr) as [t0 |] eqn:Hbt; cbn [fst snd];
    [discriminate |].
  split_cases; intros Herr; cbn [fst snd] in *; try discriminate;
    (split; [reflexivity | eexists; reflexivity]).
Qed.

(** C2. A block call on an address already blocked, or an unblock call on
    one that is not, returns an error; and whenever any of the blocker's
    calls returns an error, the three blocked-address maps are the ones it
    found.  In particular a second [BlockIP] on an address that the first
    one blocked fails, leaves the blocker as the first call left it, and the
    map holds exactly one entry for the address; [UnblockIP] on an address
    that is not blocked fails and leaves the blocker as it was. *)
Theorem blocker_failures_change_nothing :
  (forall (mu : Mutation) (b : Blocker) (w : World),
     (alreadyThere mu b -> is_Some (errorOf (perform mu b) w)) /\
     (is_Some (errorOf (perform mu b) w) ->
        sameBlocks b (blockerAfter (perform mu b) w))) /\
  (forall (b : Blocker) (ip reason reason' : string) (w w' : World),
     errorOf (BlockIP b ip reason) w = None ->
     let b1 := blockerAfter (BlockIP b ip reason) w in
     is_Some (errorOf (BlockIP b1 ip reason') w') /\
     blockerAfter (BlockIP b1 ip reason') w' = b1 /\
     length (entriesFor ip (blockedIPs b1)) = 1) /\
  (forall (b : Blocker) (ip : string) (w : World),
     blockedIPs b !! ip = None ->
     is_Some (errorOf (UnblockIP b ip) w) /\
     blockerAfter (UnblockIP b ip) w = b).
Proof.
  split; [| split].
  - intros mu b w. split.
    + destruct mu; cbn [alreadyThere perform]; intros Hthere;
        unfold errorOf, valueOf; try contradiction.
      * rewrite BlockIP_conflict by exact Hthere. eexists; reflexivity.
      * rewrite UnblockIP_conflict by exact Hthere. eexists; reflexivity.
      * rewrite BlockMAC_conflict by exact Hthere. eexists; reflexivity.
      * rewrite UnblockMAC_conflict by exact Hthere. eexists; reflexivity.
      * rewrite BlockBluetoothDevice_conflict by exact Hthere. eexists; reflexivity.
      * rewrite UnblockBluetoothDevice_conflict by exact Hthere. eexists; reflexivity.
    + destruct mu; cbn [perform].
      * apply BlockIP_error_frame.
      * apply UnblockIP_error_frame.
      * apply BlockMAC_error_frame.
      * apply UnblockMAC_error_frame.
      * apply BlockBluetoothDevice_error_frame.
      * apply UnblockBluetoothDevice_error_frame.
      * intros _. apply DeauthWiFiClient_sameBlocks.
      * intros _. apply sameBlocks_logTo.
      * apply AutoBlockAttack_error_frame.
  - intros b ip reason reason' w w' Hok b1.
    destruct (BlockIP_success b ip reason w Hok) as [Hfree [t Ht]].
    assert (Hin : blockedIPs b1 !! ip = Some t)
      by (subst b1; rewrite Ht; apply lookup_insert_eq).
    unfold errorOf, blockerAfter, valueOf.
    rewrite BlockIP_conflict by (eexists; exact Hin).
    cbn [fst snd]. split; [eexists; reflexivity |]. split; [reflexivity |].
    rewrite (entriesFor_present ip t) by exact Hin. reflexivity.
  - intros b ip w Hnone. unfold errorOf, blockerAfter, valueOf.
    rewrite UnblockIP_conflict by exact Hnone.
    cbn [fst snd]. split; [eexists; reflexivity | reflexivity].
Qed.

Lemma blocker_failures_change_nothing_witness :
  errorOf (BlockIP (NewBlocker false) "1.2.3.4" "x") (withUfw 7%Z) = None /\
  is_Some (errorOf
             (BlockIP (blockerAfter (BlockIP (NewBlocker false) "1.2.3.4" "x") (withUfw 7%Z))
                "1.2.3.4" "x") (withUfw 8%Z)) /\
  blockerAfter
    (BlockIP (blockerAfter (BlockIP (NewBlocker false) "1.2.3.4" "x") (withUfw 7%Z))
       "1.2.3.4" "x") (withUfw 8%Z)
  = blockerAfter (BlockIP (NewBlocker false) "1.2.3.4" "x") (withUfw 7%Z) /\
  length (entriesFor "1.2.3.4"
            (blockedIPs (blockerAfter (BlockIP (NewBlocker false) "1.2.3.4" "x")
                           (withUfw 7%Z)))) = 1.
Proof.
  split; [reflexivity |].
  exact (proj1 (proj2 blocker_failures_change_nothing)
           (NewBlocker false) "1.2.3.4" "x" "x" (withUfw 7%Z) (withUfw 8%Z) eq_refl).
Defined.

Lemma oneOf_In (s : string) (cases : list string) :
  oneOf s cases = true <-> In s cases.
Proof.
  unfold oneOf. rewrite existsb_exists. split.
  - intros [x [Hin Heq]]. apply String.eqb_eq in Heq. subst x. exact Hin.
  - intros Hin. exists s. split; [exact Hin | apply String.eqb_refl].
Qed.

(** C8, where the claim is too strong: with auto-block enabled, an
    UNKNOWN_DEVICE finding whose target contains a dot is not blocked on a
    host without ufw, firewalld and iptables, and a BLUETOOTH_SPOOFING
    finding is not blocked when rfkill is installed and fails: the block
    call returns its error and the target is absent from the map. *)
Lemma autoblock_target_not_blocked_counterexample :
  (autoBlock (NewBlocker true) = true /\
   Type_ intruder = "UNKNOWN_DEVICE" /\
   Contains (Target intruder) "." = true /\
   errorOf (AutoBlockAttack (NewBlocker true) intruder) bareHost
   = Some "no supported firewall tool found (ufw, firewalld, iptables)" /\
   blockedIPs (blockerAfter (AutoBlockAttack (NewBlocker true) intruder) bareHost)
     !! Target intruder = None) /\
  (Type_ spoofer = "BLUETOOTH_SPOOFING" /\
   errorOf (AutoBlockAttack (NewBlocker true) spoofer) rfkillFails
   = Some "exit status 1" /\
   blockedBTAddrs (blockerAfter (AutoBlockAttack (NewBlocker true) spoofer) rfkillFails)
     !! Target spoofer = None).
Proof. vm_compute. repeat split. Qed.

(** C8 as amended.  With auto-block disabled the call returns no error and
    touches neither the blocker nor the host.  With auto-block enabled: a
    finding of type UNKNOWN_DEVICE, SUSPICIOUS_PORT or AI_CONNECTION_ANOMALY
    whose target contains a dot is the call [BlockIP] on that target, so the
    target is in the blocked-IP map whenever no error comes back, and the
    maps are unchanged whenever one does; without a dot nothing happens; a
    finding of type BLUETOOTH_SPOOFING or BLUETOOTH_MITM is the call
    [BlockBluetoothDevice] on the target, with the same two outcomes; a
    finding of type EVIL_TWIN or ROGUE_AP hands one line to the logger and
    changes nothing else. *)
Theorem AutoBlockAttack_dispatch :
  forall (b : Blocker) (attack : Attack) (w : World),
    let call := AutoBlockAttack b attack in
    let reason := "Auto-blocked: " +:+ Description attack in
    (autoBlock b = false -> call w = ((b, None), w)) /\
    (autoBlock b = true ->
     In (Type_ attack) ["UNKNOWN_DEVICE"; "SUSPICIOUS_PORT"; "AI_CONNECTION_ANOMALY"] ->
     (Contains (Target attack) "." = true ->
        call = BlockIP b (Target attack) reason /\
        (errorOf call w = None ->
           is_Some (blockedIPs (blockerAfter call w) !! Target attack)) /\
        (is_Some (errorOf call w) -> sameBlocks b (blockerAfter call w))) /\
     (Contains (Target attack) "." = false -> call w = ((b, None), w))) /\
    (autoBlock b = true ->
     In (Type_ attack) ["BLUETOOTH_SPOOFING"; "BLUETOOTH_MITM"] ->
     call = BlockBluetoothDevice b (Target attack) reason /\
     (errorOf call w = None ->
        is_Some (blockedBTAddrs (blockerAfter call w) !! Target attack)) /\
     (is_Some (errorOf call w) -> sameBlocks b (blockerAfter call w))) /\
    (autoBlock b = true ->
     In (Type_ attack) ["EVIL_TWIN"; "ROGUE_AP"] ->
     call w = ((logTo (LogInfo ("Would deauth clients from rogue AP: " +:+ Target attack)) b,
                None), w)).
Proof.
  intros b attack w call reason. subst call reason.
  split; [| split; [| split]].
  - intros Hoff. unfold AutoBlockAttack. rewrite Hoff. reflexivity.
  - intros Hon Hty. apply oneOf_In in Hty.
    assert (Hcall : forall dot, Contains (Target attack) "." = dot ->
              AutoBlockAttack b attack
              = if dot
                then BlockIP b (Target attack) ("Auto-blocked: " +:+ Description attack)
                else ret (b, None)).
    { intros dot Hdot. unfold AutoBlockAttack. rewrite Hon, Hty, Hdot. reflexivity. }
    split.
    + intros Hdot. rewrite (Hcall true Hdot). split; [reflexivity |]. split.
      * intros Hok. destruct (BlockIP_success _ _ _ _ Hok) as [_ [t Ht]].
        rewrite Ht, lookup_insert_eq. eexists; reflexivity.
      * apply BlockIP_error_frame.
    + intros Hdot. rewrite (Hcall false Hdot). reflexivity.
  - intros Hon Hty.
    assert (Hcall : AutoBlockAttack b attack
                    = BlockBluetoothDevice b (Target attack)
                        ("Auto-blocked: " +:+ Description attack)).
    { unfold AutoBlockAttack. rewrite Hon.
      destruct Hty as [Hty | [Hty | []]]; rewrite <- Hty; reflexivity. }
    rewrite Hcall. split; [reflexivity |]. split.
    + intros Hok. destruct (BlockBluetoothDevice_success _ _ _ _ Hok) as [_ [t Ht]].
      rewrite Ht, lookup_insert_eq. eexists; reflexivity.
    + apply BlockBluetoothDevice_error_frame.
  - intros Hon Hty. unfold AutoBlockAttack. rewrite Hon.
    destruct Hty as [Hty | [Hty | []]]; rewrite <- Hty; reflexivity.
Qed.

Lemma AutoBlockAttack_dispatch_witness :
  autoBlock (NewBlocker true) = true /\
  In (Type_ intruder) ["UNKNOWN_DEVICE"; "SUSPICIOUS_PORT"; "AI_CONNECTION_ANOMALY"] /\
  Contains (Target intruder) "." = true /\
  errorOf (AutoBlockAttack (NewBlocker true) intruder) (withUfw 7%Z) = None /\
  is_Some (blockedIPs (blockerAfter (AutoBlockAttack (NewBlocker true) intruder)
                         (withUfw 7%Z)) !! Target intruder).
Proof.
  split; [reflexivity |]. split; [left; reflexivity |]. split; [reflexivity |].
  split; [reflexivity |].
  exact (proj1 (proj2 (proj1 (proj1 (proj2
           (AutoBlockAttack_dispatch (NewBlocker true) intruder (withUfw 7%Z)))
           eq_refl (or_introl eq_refl)) eq_refl)) eq_refl).
Defined.

(** ** Detection heuristics *)

Section Loops.

Context {A B : Type} (view : Attack -> B).

(** A loop whose body adds [sel x] to what it was given, and starts no
    process, adds [sel] of each element in turn. *)
Lemma forEach_emits (body : list Attack -> A -> St World (list Attack))
    (sel : A -> list B) :
  (forall acc x w,
      map view (fst (body acc x w)) = map view acc ++ sel x /\
      spawned (snd (body acc x w)) = spawned w) ->
  forall xs acc w,
    map view (fst (forEach xs acc body w)) = map view acc ++ flat_map sel xs /\
    spawned (snd (forEach xs acc body w)) = spawned w.
Proof.
  intros Hbody. induction xs as [| x xs IH]; intros acc w.
  - cbn. rewrite app_nil_r. split; reflexivity.
  - cbn [forEach flat_map]. rewrite bind_run.
    destruct (IH (fst (body acc x w)) (snd (body acc x w))) as [Hv Hs].
    destruct (Hbody acc x w) as [Hv1 Hs1].
    rewrite Hv, Hs, Hv1, Hs1, app_assoc. split; reflexivity.
Qed.

End Loops.

Ltac emit_step :=
  unfold newAttack; run_monad;
  repeat match goal with
         | |- context [match ?x with _ => _ end] => destruct x
         end;
  cbn [fst snd spawned]; rewrite ?List.map_app, ?app_nil_r; split; reflexivity.

Lemma evilTwinStep_emits (counts : gmap string (list string))
    (acc : list Attack) (ssid : string) (w : World) :
  map erase (fst (evilTwinStep counts acc ssid w)) = map erase acc ++ evilTwinFor counts ssid /\
  spawned (snd (evilTwinStep counts acc ssid w)) = spawned w.
Proof. unfold evilTwinStep, evilTwinFor. emit_step. Qed.

Lemma rogueStep_emits (acc : list Attack) (device : WifiAP) (w : World) :
  map erase (fst (rogueStep acc device w)) = map erase acc ++ rogueFor device /\
  spawned (snd (rogueStep acc device w)) = spawned w.
Proof. unfold rogueStep, rogueFor. emit_step. Qed.

Lemma weakStep_emits (acc : list Attack) (device : WifiAP) (w : World) :
  map erase (fst (weakStep acc device w)) = map erase acc ++ weakFor device /\
  spawned (snd (weakStep acc device w)) = spawned w.
Proof. unfold weakStep, weakFor. emit_step. Qed.

(** The findings of [DetectWiFiAttacks]: one pass over the SSIDs in the
    order of the range, then two passes over the sample; no process is
    started. *)
Lemma DetectWiFiAttacks_findings (devices : list WifiAP) (w : World) :
  findingsOf (DetectWiFiAttacks devices) w
  = flat_map (evilTwinFor (ssidCountsOf devices)) (rangeOrder w (ssidCountsOf devices))
    ++ flat_map rogueFor devices ++ flat_map weakFor devices /\
  spawned (stateAfter (DetectWiFiAttacks devices) w) = spawned w.
Proof.
  unfold findingsOf, valueOf, stateAfter, DetectWiFiAttacks.
  rewrite bind_run.
  set (ssids := fst (rangeKeys (ssidCountsOf devices) w)).
  set (w0 := snd (rangeKeys (ssidCountsOf devices) w)).
  assert (Hs0 : spawned w0 = spawned w) by reflexivity.
  assert (Hssids : ssids = rangeOrder w (ssidCountsOf devices)) by reflexivity.
  rewrite bind_run.
  destruct (forEach_emits erase _ _ (evilTwinStep_emits (ssidCountsOf devices)) ssids [] w0)
    as [Hv1 Hs1].
  set (a1 := fst (forEach ssids [] (evilTwinStep (ssidCountsOf devices)) w0)) in *.
  set (w1 := snd (forEach ssids [] (evilTwinStep (ssidCountsOf devices)) w0)) in *.
  rewrite bind_run.
  destruct (forEach_emits erase _ _ rogueStep_emits devices a1 w1) as [Hv2 Hs2].
  set (a2 := fst (forEach devices a1 rogueStep w1)) in *.
  set (w2 := snd (forEach devices a1 rogueStep w1)) in *.
  rewrite bind_run.
  destruct (forEach_emits erase _ _ weakStep_emits devices a2 w2) as [Hv3 Hs3].
  unfold ret. cbn [fst snd].
  rewrite Hv3, Hv2, Hv1, Hs3, Hs2, Hs1, Hs0, Hssids. cbn [map app].
  rewrite <- app_assoc. split; reflexivity.
Qed.

(** *** Evil twin *)

Lemma isNamed_spec (ssid : string) :
  isNamed ssid = true <-> ssid <> EmptyString /\ ssid <> "Hidden".
Proof.
  unfold isNamed. rewrite andb_true_iff, !negb_true_iff, String.eqb_neq.
  destruct ssid; cbn; intuition congruence.
Qed.

Lemma bssidsOf_cons (ssid : string) (d : WifiAP) (devices : list WifiAP) :
  bssidsOf ssid (d :: devices)
  = if decide (ESSID d = ssid) then BSSID d :: bssidsOf ssid devices
    else bssidsOf ssid devices.
Proof.
  unfold bssidsOf. rewrite filter_cons. destruct (decide (ESSID d = ssid)); reflexivity.
Qed.

Lemma ssidCounts_fold (devices : list WifiAP) :
  forall (m : gmap string (list string)) (ssid : string),
    default [] (fold_left ssidCountStep devices m !! ssid)
    = default [] (m !! ssid)
      ++ (if isNamed ssid then bssidsOf ssid devices else []).
Proof.
  induction devices as [| d devices IH]; intros m ssid.
  - cbn. destruct (isNamed ssid); rewrite app_nil_r; reflexivity.
  - cbn [fold_left]. rewrite IH, bssidsOf_cons. unfold ssidCountStep.
    destruct (decide (ESSID d = ssid)) as [Heq | Hne].
    + subst ssid. destruct (isNamed (ESSID d)).
      * rewrite lookup_insert_eq. cbn [from_option id]. rewrite <- app_assoc. reflexivity.
      * reflexivity.
    + destruct (isNamed (ESSID d)); [rewrite lookup_insert_ne by exact Hne |];
        reflexivity.
Qed.

Lemma ssidCountsOf_lookup (devices : list WifiAP) (ssid : string) :
  default [] (ssidCountsOf devices !! ssid)
  = if isNamed ssid then bssidsOf ssid devices else [].
Proof.
  unfold ssidCountsOf. rewrite ssidCounts_fold, lookup_empty. reflexivity.
Qed.

Lemma evilTwin_targets (counts : gmap string (list string)) (ssids : list string) :
  map fTarget (flat_map (evilTwinFor counts) ssids)
  = filter (fun ssid => 1 < length (default [] (counts !! ssid))) ssids.
Proof.
  induction ssids as [| ssid ssids IH]; [reflexivity |].
  cbn [flat_map]. rewrite List.map_app, IH, filter_cons. unfold evilTwinFor.
  destruct (Nat.ltb_spec 1 (length (default [] (counts !! ssid)))) as [Hlt | Hge];
    destruct (decide (1 < length (default [] (counts !! ssid)))); try lia; reflexivity.
Qed.

Lemma ofType_app (ty : string) (fs gs : list Finding) :
  ofType ty (fs ++ gs) = ofType ty fs ++ ofType ty gs.
Proof. apply filter_app. Qed.

Lemma ofType_flat_map_all {A : Type} (ty : string) (sel : A -> list Finding) (xs : list A) :
  (forall x f, In f (sel x) -> fType f = ty) ->
  ofType ty (flat_map sel xs) = flat_map sel xs.
Proof.
  intros Hty. unfold ofType. induction xs as [| x xs IH]; [reflexivity |].
  cbn [flat_map]. rewrite filter_app, IH. f_equal.
  specialize (Hty x). induction (sel x) as [| f fs IHf]; [reflexivity |].
  rewrite filter_cons_True by (apply Hty; left; reflexivity).
  f_equal. apply IHf. intros g Hg. apply Hty. right. exact Hg.
Qed.

Lemma ofType_flat_map_none {A : Type} (ty : string) (sel : A -> list Finding) (xs : list A) :
  (forall x f, In f (sel x) -> fType f <> ty) ->
  ofType ty (flat_map sel xs) = [].
Proof.
  intros Hty. unfold ofType. apply filter_none. intros f Hf.
  apply list_elem_of_In, in_flat_map in Hf. destruct Hf as [x [_ Hx]].
  exact (Hty x f Hx).
Qed.

Lemma evilTwinFor_type (counts : gmap string (list string)) (ssid : string) (f : Finding) :
  In f (evilTwinFor counts ssid) -> fType f = "EVIL_TWIN" /\ fSeverity f = "High".
Proof.
  unfold evilTwinFor. destruct (1 <? _); [| intros []].
  intros [<- | []]. split; reflexivity.
Qed.

Lemma rogueFor_type (device : WifiAP) (f : Finding) :
  In f (rogueFor device) -> fType f = "ROGUE_AP".
Proof.
  unfold rogueFor. destruct (find _ _); [| intros []]. intros [<- | []]. reflexivity.
Qed.

Lemma weakFor_type (device : WifiAP) (f : Finding) :
  In f (weakFor device) -> fType f = "WEAK_ENCRYPTION".
Proof.
  unfold weakFor. destruct (Contains _ _); [| intros []]. intros [<- | []]. reflexivity.
Qed.

(** The EVIL_TWIN findings are those of the first loop. *)
Lemma evilTwin_findings (devices : list WifiAP) (w : World) :
  ofType "EVIL_TWIN" (findingsOf (DetectWiFiAttacks devices) w)
  = flat_map (evilTwinFor (ssidCountsOf devices)) (rangeOrder w (ssidCountsOf devices)).
Proof.
  rewrite (proj1 (DetectWiFiAttacks_findings devices w)), !ofType_app.
  rewrite (ofType_flat_map_all "EVIL_TWIN" (evilTwinFor _))
    by (intros x f Hf; apply (evilTwinFor_type _ _ _ Hf)).
  rewrite (ofType_flat_map_none "EVIL_TWIN" rogueFor)
    by (intros x f Hf; rewrite (rogueFor_type _ _ Hf); discriminate).
  rewrite (ofType_flat_map_none "EVIL_TWIN" weakFor)
    by (intros x f Hf; rewrite (weakFor_type _ _ Hf); discriminate).
  rewrite !app_nil_r. reflexivity.
Qed.

Lemma rangeOrder_Permutation {V : Type} (w : World) (m : gmap string V) :
  Permutation (rangeOrder w m) (map fst (map_to_list m)).
Proof. unfold rangeOrder. apply merge_sort_Permutation. Qed.

Lemma rangeOrder_NoDup {V : Type} (w : World) (m : gmap string V) :
  NoDup (rangeOrder w m).
Proof.
  rewrite (rangeOrder_Permutation w m). exact (NoDup_fst_map_to_list m).
Qed.

Lemma rangeOrder_In {V : Type} (w : World) (m : gmap string V) (k : string) :
  In k (rangeOrder w m) <-> is_Some (m !! k).
Proof.
  rewrite <- list_elem_of_In, (rangeOrder_Permutation w m), list_elem_of_In, in_map_iff.
  split.
  - intros [[k' v] [Hk Hin]]. cbn in Hk. subst k'.
    apply list_elem_of_In, elem_of_map_to_list in Hin. eexists; exact Hin.
  - intros [v Hv]. exists (k, v). split; [reflexivity |].
    apply list_elem_of_In, elem_of_map_to_list. exact Hv.
Qed.

Lemma remove_dups_NoDup {A : Type} `{EqDecision A} (l : list A) :
  NoDup l -> remove_dups l = l.
Proof.
  induction 1 as [| x l Hx Hl IH]; [reflexivity |].
  cbn. destruct (decide_rel elem_of x l) as [Hin | _]; [contradiction |].
  rewrite IH. reflexivity.
Qed.

Lemma bssidsOf_NoDup (ssid : string) (devices : list WifiAP) :
  NoDup (map BSSID devices) -> NoDup (bssidsOf ssid devices).
Proof.
  induction devices as [| d devices IH]; intros Hnd; [constructor |].
  cbn [map] in Hnd. apply NoDup_cons in Hnd. destruct Hnd as [Hd Hrest].
  rewrite bssidsOf_cons. destruct (decide (ESSID d = ssid)); [| auto].
  apply NoDup_cons. split; [| auto].
  intros Hin. apply Hd. unfold bssidsOf in Hin.
  apply list_elem_of_In, in_map_iff in Hin. destruct Hin as [d' [Hb Hd']].
  apply list_elem_of_In, in_map_iff. exists d'. split; [exact Hb |].
  apply list_elem_of_In, list_elem_of_filter in Hd'. apply list_elem_of_In, Hd'.
Qed.

(** C6, where the claim is too strong: an SSID listed twice with the same
    BSSID has one distinct BSSID and still yields an EVIL_TWIN finding; the
    heuristic counts the access points that carry the SSID. *)
Lemma evil_twin_single_bssid_counterexample :
  ofType "EVIL_TWIN" (findingsOf (DetectWiFiAttacks homeTwice) bareHost)
  = [{| fType := "EVIL_TWIN"; fSeverity := "High";
        fDescription := "Potential evil twin attack: SSID 'Home' appears 2 times";
        fTarget := "Home" |}] /\
  remove_dups (bssidsOf "Home" homeTwice) = ["AA:AA"].
Proof. vm_compute. split; reflexivity. Qed.

(** C6 as amended.  On every host and for every sample, the EVIL_TWIN
    findings are all of severity High and there is exactly one of them per
    SSID that is neither empty nor "Hidden" and is carried by at least two
    access points of the sample, and none for any other SSID; when the
    BSSIDs of the sample are pairwise distinct this is the number of
    distinct BSSIDs of the SSID.  For the sample Home/AA:AA, Home/BB:BB,
    Office/CC:CC there is exactly one EVIL_TWIN finding, for "Home". *)
Theorem evil_twin_per_repeated_ssid :
  (forall (devices : list WifiAP) (w : World),
     let found := ofType "EVIL_TWIN" (findingsOf (DetectWiFiAttacks devices) w) in
     (forall f, In f found -> fSeverity f = "High") /\
     NoDup (map fTarget found) /\
     (forall ssid, In ssid (map fTarget found) <->
        ssid <> EmptyString /\ ssid <> "Hidden" /\
        2 <= length (bssidsOf ssid devices)) /\
     (NoDup (map BSSID devices) ->
      forall ssid, In ssid (map fTarget found) <->
        ssid <> EmptyString /\ ssid <> "Hidden" /\
        2 <= length (remove_dups (bssidsOf ssid devices)))) /\
  (forall w : World,
     map (fun f => (fType f, fSeverity f, fTarget f))
       (ofType "EVIL_TWIN" (findingsOf (DetectWiFiAttacks homeOffice) w))
     = [("EVIL_TWIN", "High", "Home")]).
Proof.
  assert (Hmem : forall devices w ssid,
            In ssid (map fTarget
                       (ofType "EVIL_TWIN" (findingsOf (DetectWiFiAttacks devices) w)))
            <-> ssid <> EmptyString /\ ssid <> "Hidden" /\
                2 <= length (bssidsOf ssid devices)).
  { intros devices w ssid.
    rewrite evilTwin_findings, evilTwin_targets, <- list_elem_of_In,
      list_elem_of_filter, list_elem_of_In, rangeOrder_In, ssidCountsOf_lookup.
    pose proof (ssidCountsOf_lookup devices ssid) as Hlook.
    pose proof (isNamed_spec ssid) as Hnamed.
    destruct (isNamed ssid).
    - split.
      + intros [Hlen _]. destruct (proj1 Hnamed eq_refl). repeat split; auto; lia.
      + intros (_ & _ & Hlen). split; [lia |].
        destruct (ssidCountsOf devices !! ssid) as [v |]; [eexists; reflexivity |].
        cbn in Hlook. rewrite <- Hlook in Hlen. cbn in Hlen. lia.
    - split.
      + intros [Hlen _]. cbn in Hlen. lia.
      + intros (Hne & Hnh & _). destruct Hnamed as [_ Hnamed].
        specialize (Hnamed (conj Hne Hnh)). discriminate. }
  split.
  - intros devices w found. subst found. split; [| split; [| split]].
    + intros f Hf. rewrite evilTwin_findings in Hf.
      apply in_flat_map in Hf. destruct Hf as [ssid [_ Hf]].
      apply (evilTwinFor_type _ _ _ Hf).
    + rewrite evilTwin_findings, evilTwin_targets.
      apply NoDup_filter, rangeOrder_NoDup.
    + apply Hmem.
    + intros Hnd ssid.
      rewrite (remove_dups_NoDup _ (bssidsOf_NoDup ssid devices Hnd)). apply Hmem.
  - intros w. rewrite evilTwin_findings.
    pose proof (rangeOrder_Permutation w (ssidCountsOf homeOffice)) as Hperm.
    assert (Hkeys : map fst (map_to_list (ssidCountsOf homeOffice)) = ["Home"; "Office"]
                    \/ map fst (map_to_list (ssidCountsOf homeOffice)) = ["Office"; "Home"]).
    { vm_compute. tauto. }
    assert (Horder : rangeOrder w (ssidCountsOf homeOffice) = ["Home"; "Office"]
                     \/ rangeOrder w (ssidCountsOf homeOffice) = ["Office"; "Home"]).
    { destruct Hkeys as [Hk | Hk]; rewrite Hk in Hperm;
        apply Permutation_sym, Permutation_length_2_inv in Hperm; tauto. }
    destruct Horder as [-> | ->]; vm_compute; reflexivity.
Qed.

Lemma evil_twin_per_repeated_ssid_witness :
  NoDup (map BSSID homeOffice) /\
  (In "Home" (map fTarget (ofType "EVIL_TWIN"
                             (findingsOf (DetectWiFiAttacks homeOffice) bareHost)))
   <-> "Home" <> EmptyString /\ "Home" <> "Hidden" /\
       2 <= length (remove_dups (bssidsOf "Home" homeOffice))).
Proof.
  assert (Hnd : NoDup (map BSSID homeOffice)).
  { apply (bool_decide_unpack _). vm_compute. exact I. }
  split; [exact Hnd |].
  exact (proj2 (proj2 (proj2 (proj1 evil_twin_per_repeated_ssid homeOffice bareHost)))
           Hnd "Home").
Defined.

(** *** What the heuristics depend on *)

Lemma found_existsb {A : Type} (P : A -> bool) (l : list A) :
  match find P l with Some _ => true | None => false end = existsb P l.
Proof.
  induction l as [| x l IH]; [reflexivity |].
  cbn. destruct (P x); [reflexivity | exact IH].
Qed.

Lemma existsb_Permutation {A : Type} (P : A -> bool) (l l' : list A) :
  Permutation l l' -> existsb P l = existsb P l'.
Proof.
  induction 1 as [| x l l' _ IH | x y l | l l' l'' _ IH1 _ IH2]; cbn.
  - reflexivity.
  - rewrite IH. reflexivity.
  - destruct (P x), (P y); reflexivity.
  - rewrite IH1. exact IH2.
Qed.

Lemma massScanStep_emits (devices : list BluetoothDevice) (acc : list Attack) (w : World) :
  map blur (fst (massScanStep devices acc w)) = map blur acc ++ massScanFor devices /\
  spawned (snd (massScanStep devices acc w)) = spawned w.
Proof. unfold massScanStep, massScanFor. emit_step. Qed.

Lemma spoofStep_emits (acc : list Attack) (device : BluetoothDevice) (w : World) :
  map blur (fst (spoofStep acc device w)) = map blur acc ++ spoofFor device /\
  spawned (snd (spoofStep acc device w)) = spawned w.
Proof. unfold spoofStep, spoofFor. emit_step. Qed.

Lemma mitmStep_emits (acc : list Attack) (device : BluetoothDevice) (w : World) :
  map blur (fst (mitmStep acc device w)) = map blur acc ++ mitmFor device /\
  spawned (snd (mitmStep acc device w)) = spawned w.
Proof.
  unfold mitmStep, mitmFor, rangeKeys.
  rewrite <- (existsb_Permutation _ _ _
                (merge_sort_Permutation (rankLe (script w (ticks w)))
                   (map fst (map_to_list mitmPatterns)))).
  rewrite <- found_existsb.
  unfold newAttack. run_monad.
  destruct (find _ _); cbn [fst snd spawned];
    rewrite ?List.map_app, ?app_nil_r; split; reflexivity.
Qed.

Lemma portStep_emits (outputStr : string) (acc : list Attack) (port : string) (w : World) :
  map erase (fst (portStep outputStr acc port w)) = map erase acc ++ portFor outputStr port /\
  spawned (snd (portStep outputStr acc port w)) = spawned w.
Proof. unfold portStep, portFor. emit_step. Qed.

(** The findings of [DetectBluetoothAttacks], up to the description of the
    BLUETOOTH_MITM ones, are a function of the sample; no process is
    started. *)
Lemma DetectBluetoothAttacks_findings (devices : list BluetoothDevice) (w : World) :
  map blur (valueOf (DetectBluetoothAttacks devices) w)
  = massScanFor devices ++ flat_map spoofFor devices ++ flat_map mitmFor devices /\
  spawned (stateAfter (DetectBluetoothAttacks devices) w) = spawned w.
Proof.
  unfold valueOf, stateAfter, DetectBluetoothAttacks.
  rewrite bind_run.
  destruct (massScanStep_emits devices [] w) as [Hv0 Hs0].
  set (a0 := fst (massScanStep devices [] w)) in *.
  set (w0 := snd (massScanStep devices [] w)) in *.
  rewrite bind_run.
  destruct (forEach_emits blur _ _ spoofStep_emits devices a0 w0) as [Hv1 Hs1].
  set (a1 := fst (forEach devices a0 spoofStep w0)) in *.
  set (w1 := snd (forEach devices a0 spoofStep w0)) in *.
  rewrite bind_run.
  destruct (forEach_emits blur _ _ mitmStep_emits devices a1 w1) as [Hv2 Hs2].
  unfold ret. cbn [fst snd].
  rewrite Hv2, Hv1, Hv0, Hs2, Hs1, Hs0. cbn [map app].
  rewrite <- app_assoc. split; reflexivity.
Qed.

(** What [DetectNetworkAttacks] does on host [w]: it looks nmap up, and when
    found runs the scan; when the scan succeeds the findings are those of
    the four ports, in the order of the range. *)
Lemma DetectNetworkAttacks_findings (w : World) :
  match lookPath (script w (ticks w)) "nmap" with
  | None =>
      valueOf DetectNetworkAttacks w = [] /\
      spawned (stateAfter DetectNetworkAttacks w) = spawned w
  | Some _ =>
      spawned (stateAfter DetectNetworkAttacks w) = spawned w ++ [nmapScan] /\
      let scan := process (script w (S (ticks w))) nmapScan in
      match exitErr scan with
      | Some _ => valueOf DetectNetworkAttacks w = []
      | None =>
          Permutation (findingsOf DetectNetworkAttacks w)
            (flat_map (portFor (combined scan)) ["21/tcp"; "23/tcp"; "3389/tcp"; "445/tcp"])
      end
  end.
Proof.
  unfold findingsOf, valueOf, stateAfter, DetectNetworkAttacks. run_monad.
  destruct (lookPath (script w (ticks w)) "nmap") as [path |];
    [| split; reflexivity].
  cbn [fst snd script ticks spawned].
  destruct (exitErr (process (script w (S (ticks w))) nmapScan)) as [e |] eqn:Herr.
  - split; reflexivity.
  - unfold rangeKeys. run_monad.
    set (w2 := {| script := script w; ticks := S (S (S (ticks w)));
                  spawned := spawned w ++ [nmapScan] |}).
    set (ports := merge_sort _ _).
    destruct (forEach_emits erase _ _
                (portStep_emits (combined (process (script w (S (ticks w))) nmapScan)))
                ports [] w2) as [Hv Hs].
    split; [exact Hs |].
    rewrite Hv. cbn [map app].
    apply Permutation_flat_map. subst ports.
    rewrite merge_sort_Permutation.
    apply (bool_decide_unpack _). vm_compute. exact I.
Qed.

(** C5, where the claim is too strong.  [DetectNetworkAttacks] starts nmap
    and its findings change with the host although it is given no sample at
    all; and two runs of the two other heuristics on one sample can differ
    beyond the timestamps, because they range over Go maps: the description
    of a BLUETOOTH_MITM finding names whichever matching pattern the range
    meets first, and the EVIL_TWIN findings come in the order of the
    range. *)
Lemma heuristics_purity_counterexample :
  spawned (stateAfter DetectNetworkAttacks (printing nmapReport)) = [nmapScan] /\
  findingsOf DetectNetworkAttacks (printing nmapReport)
  <> findingsOf DetectNetworkAttacks bareHost /\
  findingsOf (DetectBluetoothAttacks [relay]) (ranging shortestFirst)
  <> findingsOf (DetectBluetoothAttacks [relay]) (ranging longestFirst) /\
  findingsOf (DetectWiFiAttacks twoTwins) (ranging shortestFirst)
  <> findingsOf (DetectWiFiAttacks twoTwins) (ranging longestFirst).
Proof.
  vm_compute. split; [reflexivity |].
  split; [discriminate |]. split; discriminate.
Qed.

(** C5 as amended.  [DetectWiFiAttacks] and [DetectBluetoothAttacks] start
    no process, whatever the host.  For one sample, two runs of
    [DetectWiFiAttacks] yield the same findings up to their timestamps and
    their order, and two runs of [DetectBluetoothAttacks] yield the same
    findings, in the same order, up to their timestamps and the description
    of the BLUETOOTH_MITM ones.  [DetectNetworkAttacks] takes no sample: it
    looks nmap up; when nmap is missing, or is run and fails, there is no
    finding; when it succeeds the findings are, up to timestamps and order,
    one per port among 21, 23, 3389 and 445 whose name occurs in the output
    together with the word "open". *)
Theorem heuristics_depend_on :
  (forall (devices : list WifiAP) (w1 w2 : World),
     Permutation (findingsOf (DetectWiFiAttacks devices) w1)
                 (findingsOf (DetectWiFiAttacks devices) w2) /\
     spawned (stateAfter (DetectWiFiAttacks devices) w1) = spawned w1) /\
  (forall (devices : list BluetoothDevice) (w1 w2 : World),
     map blur (valueOf (DetectBluetoothAttacks devices) w1)
     = map blur (valueOf (DetectBluetoothAttacks devices) w2) /\
     spawned (stateAfter (DetectBluetoothAttacks devices) w1) = spawned w1) /\
  (forall w : World,
     match lookPath (script w (ticks w)) "nmap" with
     | None =>
         valueOf DetectNetworkAttacks w = [] /\
         spawned (stateAfter DetectNetworkAttacks w) = spawned w
     | Some _ =>
         spawned (stateAfter DetectNetworkAttacks w) = spawned w ++ [nmapScan] /\
         let scan := process (script w (S (ticks w))) nmapScan in
         match exitErr scan with
         | Some _ => valueOf DetectNetworkAttacks w = []
         | None =>
             Permutation (findingsOf DetectNetworkAttacks w)
               (flat_map (portFor (combined scan))
                  ["21/tcp"; "23/tcp"; "3389/tcp"; "445/tcp"])
         end
     end).
Proof.
  split; [| split].
  - intros devices w1 w2.
    destruct (DetectWiFiAttacks_findings devices w1) as [Hv1 Hs1].
    destruct (DetectWiFiAttacks_findings devices w2) as [Hv2 _].
    split; [| exact Hs1].
    rewrite Hv1, Hv2. apply Permutation_app_tail, Permutation_flat_map.
    rewrite !rangeOrder_Permutation. reflexivity.
  - intros devices w1 w2.
    destruct (DetectBluetoothAttacks_findings devices w1) as [Hv1 Hs1].
    destruct (DetectBluetoothAttacks_findings devices w2) as [Hv2 _].
    split; [congruence | exact Hs1].
  - exact DetectNetworkAttacks_findings.
Qed.

(** * Further properties *)

(** ** Wi-Fi heuristics: rogue access points and weak encryption *)

Lemma flat_map_guarded {A B : Type} (P : A -> bool) (f : A -> B) (xs : list A) :
  flat_map (fun x => if P x then [f x] else []) xs
  = map f (filter (fun x => P x = true) xs).
Proof.
  induction xs as [| x xs IH]; [reflexivity |].
  cbn [flat_map]. rewrite IH, filter_cons.
  destruct (P x) eqn:HP; destruct (decide (true = true)); destruct (decide (false = true));
    try congruence; reflexivity.
Qed.

Lemma weakFor_guarded (device : WifiAP) :
  weakFor device
  = if Contains (ToLower (ENC device)) "wep"
    then [{| fType := "WEAK_ENCRYPTION"; fSeverity := "High";
             fDescription := "Weak encryption (WEP) detected on network: " +:+ ESSID device;
             fTarget := ESSID device |}]
    else [].
Proof. reflexivity. Qed.

Lemma rogueFor_guarded (device : WifiAP) :
  rogueFor device
  = if existsb (Contains (ToLower (ESSID device))) roguePatterns
    then [{| fType := "ROGUE_AP"; fSeverity := "High";
             fDescription := "Potentially rogue access point detected: " +:+ ESSID device;
             fTarget := ESSID device |}]
    else [].
Proof.
  unfold rogueFor. rewrite <- found_existsb. destruct (find _ _); reflexivity.
Qed.

(** X1. On every host, the WEAK_ENCRYPTION findings of a sample are, in the
    order of the sample, one finding of severity High per access point whose
    encryption tag contains "wep" once lowered, with the SSID as target; an
    access point without "wep" in its tag gives none. *)
Theorem weak_encryption_findings :
  forall (devices : list WifiAP) (w : World),
    ofType "WEAK_ENCRYPTION" (findingsOf (DetectWiFiAttacks devices) w)
    = map (fun d =>
             {| fType := "WEAK_ENCRYPTION"; fSeverity := "High";
                fDescription := "Weak encryption (WEP) detected on network: " +:+ ESSID d;
                fTarget := ESSID d |})
          (filter (fun d => Contains (ToLower (ENC d)) "wep" = true) devices).
Proof.
  intros devices w.
  rewrite (proj1 (DetectWiFiAttacks_findings devices w)), !ofType_app.
  rewrite (ofType_flat_map_none "WEAK_ENCRYPTION" (evilTwinFor _))
    by (intros x f Hf; rewrite (proj1 (evilTwinFor_type _ _ _ Hf)); discriminate).
  rewrite (ofType_flat_map_none "WEAK_ENCRYPTION" rogueFor)
    by (intros x f Hf; rewrite (rogueFor_type _ _ Hf); discriminate).
  rewrite (ofType_flat_map_all "WEAK_ENCRYPTION" weakFor)
    by (intros x f Hf; apply (weakFor_type _ _ Hf)).
  cbn [app].
  rewrite <- (flat_map_guarded (fun d => Contains (ToLower (ENC d)) "wep")).
  apply flat_map_ext. intros d. apply weakFor_guarded.
Qed.

(** X2. On every host, the ROGUE_AP findings of a sample are, in the order
    of the sample, one finding of severity High per access point whose
    lowered SSID contains one of the words free, public, hack, test, evil,
    wifi, guest, default: one finding even when several words occur. *)
Theorem rogue_ap_findings :
  forall (devices : list WifiAP) (w : World),
    ofType "ROGUE_AP" (findingsOf (DetectWiFiAttacks devices) w)
    = map (fun d =>
             {| fType := "ROGUE_AP"; fSeverity := "High";
                fDescription := "Potentially rogue access point detected: " +:+ ESSID d;
                fTarget := ESSID d |})
          (filter (fun d =>
                     existsb (Contains (ToLower (ESSID d)))
                       ["free"; "public"; "hack"; "test"; "evil"; "wifi"; "guest"; "default"]
                     = true) devices).
Proof.
  intros devices w.
  rewrite (proj1 (DetectWiFiAttacks_findings devices w)), !ofType_app.
  rewrite (ofType_flat_map_none "ROGUE_AP" (evilTwinFor _))
    by (intros x f Hf; rewrite (proj1 (evilTwinFor_type _ _ _ Hf)); discriminate).
  rewrite (ofType_flat_map_all "ROGUE_AP" rogueFor)
    by (intros x f Hf; apply (rogueFor_type _ _ Hf)).
  rewrite (ofType_flat_map_none "ROGUE_AP" weakFor)
    by (intros x f Hf; rewrite (weakFor_type _ _ Hf); discriminate).
  cbn [app]. rewrite app_nil_r.
  rewrite <- (flat_map_guarded
                (fun d => existsb (Contains (ToLower (ESSID d))) roguePatterns)).
  apply flat_map_ext. intros d. apply rogueFor_guarded.
Qed.

(** ** Bluetooth heuristics *)

Lemma headlineOf_blur (a : Attack) : headlineOf (blur a) = headline a.
Proof. unfold blur. destruct (String.eqb _ _); reflexivity. Qed.

Lemma map_headline (attacks : list Attack) :
  map headline attacks = map headlineOf (map blur attacks).
Proof.
  rewrite List.map_map. apply List.map_ext. intros a. symmetry. apply headlineOf_blur.
Qed.

Lemma map_flat_map_guarded {A B C : Type} (g : B -> C) (P : A -> bool) (f : A -> B)
    (sel : A -> list B) (xs : list A) :
  (forall x, sel x = if P x then [f x] else []) ->
  map g (flat_map sel xs) = map (fun x => g (f x)) (filter (fun x => P x = true) xs).
Proof.
  intros Hsel.
  rewrite (flat_map_ext sel (fun x => if P x then [f x] else []) Hsel xs).
  rewrite flat_map_guarded, List.map_map. reflexivity.
Qed.

Lemma mitmPatterns_keys :
  Permutation (map fst (map_to_list mitmPatterns)) ["proxy"; "gateway"; "bridge"; "intercept"].
Proof. apply (bool_decide_unpack _). vm_compute. exact I. Qed.

(** X3. On every host, type, severity and target of the findings of
    [DetectBluetoothAttacks] are a function of the sample: first one Medium
    BLUETOOTH_MASS_SCANNING finding when the sample has more than 20 devices
    (none for 20 or fewer); then, in the order of the sample, one High
    BLUETOOTH_SPOOFING finding per device whose lowered name contains one of
    the eight suspicious words; then one High BLUETOOTH_MITM finding per
    device whose lowered name contains proxy, gateway, bridge or intercept.
    The target of a device's finding is its address. *)
Theorem bluetooth_findings_headlines :
  forall (devices : list BluetoothDevice) (w : World),
    map headline (valueOf (DetectBluetoothAttacks devices) w)
    = (if 20 <? length devices
       then [("BLUETOOTH_MASS_SCANNING", "Medium", "bluetooth_network")]
       else [])
      ++ map (fun d => ("BLUETOOTH_SPOOFING", "High", Address d))
           (filter (fun d =>
                      existsb (Contains (ToLower (Name d)))
                        ["attack"; "hack"; "exploit"; "test"; "spoof"; "evil";
                         "malware"; "virus"] = true) devices)
      ++ map (fun d => ("BLUETOOTH_MITM", "High", Address d))
           (filter (fun d =>
                      existsb (Contains (ToLower (Name d)))
                        ["proxy"; "gateway"; "bridge"; "intercept"] = true) devices).
Proof.
  intros devices w.
  rewrite map_headline, (proj1 (DetectBluetoothAttacks_findings devices w)).
  rewrite !List.map_app. f_equal; [| f_equal].
  - unfold massScanFor. destruct (20 <? length devices); reflexivity.
  - apply (map_flat_map_guarded headlineOf
             (fun d => existsb (Contains (ToLower (Name d))) suspiciousNames)
             (fun d =>
                {| fType := "BLUETOOTH_SPOOFING"; fSeverity := "High";
                   fDescription := "Suspicious Bluetooth device name: " +:+ Name d
                                   +:+ " (" +:+ Address d +:+ ")";
                   fTarget := Address d |})).
    intros d. unfold spoofFor. rewrite <- found_existsb.
    destruct (find _ _); reflexivity.
  - apply (map_flat_map_guarded headlineOf
             (fun d => existsb (Contains (ToLower (Name d)))
                         ["proxy"; "gateway"; "bridge"; "intercept"])
             (fun d =>
                {| fType := "BLUETOOTH_MITM"; fSeverity := "High";
                   fDescription := EmptyString; fTarget := Address d |})).
    intros d. unfold mitmFor.
    rewrite (existsb_Permutation _ _ _ mitmPatterns_keys). reflexivity.
Qed.

(** ** Reading the findings log *)

(** X4. [GetRecentAttacks] changes nothing and returns a tail of the log,
    in arrival order: the last [limit] findings when [limit] is positive
    and at most the length of the log, the whole log otherwise.  Right
    after [AddAttack a], every positive [limit] gives a result that ends
    with [a]. *)
Theorem GetRecentAttacks_tail :
  forall (limit : Z) (m : Machine),
    let log := Attacks (globals m) in
    let recent := valueOf (GetRecentAttacks limit) m in
    stateAfter (GetRecentAttacks limit) m = m /\
    (exists older, log = older ++ recent) /\
    length recent
    = (if ((0 <? limit) && (limit <=? Z.of_nat (length log)))%Z
       then Z.to_nat limit else length log) /\
    (forall a, (0 < limit)%Z ->
       exists before,
         valueOf (GetRecentAttacks limit) (stateAfter (AddAttack a) m) = before ++ [a]).
Proof.
  assert (Hval : forall limit m,
            valueOf (GetRecentAttacks limit) m
            = if ((limit <=? 0) || (Z.of_nat (length (Attacks (globals m))) <? limit))%Z
              then Attacks (globals m)
              else drop (Z.to_nat (Z.of_nat (length (Attacks (globals m))) - limit))
                     (Attacks (globals m))).
  { intros limit m. unfold valueOf, GetRecentAttacks, getG, bind, ret.
    destruct (_ || _)%Z; reflexivity. }
  assert (Htail : forall limit m, exists older,
            Attacks (globals m) = older ++ valueOf (GetRecentAttacks limit) m).
  { intros limit m. rewrite Hval. destruct (_ || _)%Z.
    - exists []. reflexivity.
    - eexists. symmetry. apply take_drop. }
  assert (Hlen : forall limit m,
            length (valueOf (GetRecentAttacks limit) m)
            = if ((0 <? limit) && (limit <=? Z.of_nat (length (Attacks (globals m)))))%Z
              then Z.to_nat limit else length (Attacks (globals m))).
  { intros limit m. rewrite Hval.
    destruct (Z.leb_spec limit 0), (Z.ltb_spec (Z.of_nat (length (Attacks (globals m)))) limit),
      (Z.ltb_spec 0 limit), (Z.leb_spec limit (Z.of_nat (length (Attacks (globals m)))));
      cbn [orb andb]; try lia; try reflexivity.
    rewrite length_drop. lia. }
  intros limit m log recent. subst log recent.
  split; [| split; [| split]].
  - unfold stateAfter, GetRecentAttacks, getG, bind, ret.
    destruct (_ || _)%Z; reflexivity.
  - apply Htail.
  - apply Hlen.
  - intros a Hpos.
    set (m' := stateAfter (AddAttack a) m).
    destruct (Htail limit m') as [older Holder].
    pose proof (Hlen limit m') as Hl.
    assert (Hlog : exists init, Attacks (globals m') = init ++ [a]).
    { subst m'. rewrite AddAttack_log. unfold keepLast.
      rewrite drop_app_le by (rewrite length_app; cbn; lia).
      eexists; reflexivity. }
    destruct Hlog as [init Hinit].
    assert (Hne : valueOf (GetRecentAttacks limit) m' <> []).
    { intros Hnil. rewrite Hnil in Hl. cbn in Hl.
      rewrite Hinit, length_app in Hl. cbn in Hl.
      destruct (_ && _)%Z; lia. }
    destruct (exists_last Hne) as [before [z Hz]].
    exists before. rewrite Hz. f_equal. f_equal.
    rewrite Hz, Hinit, app_assoc in Holder.
    apply app_inj_tail in Holder. destruct Holder as [_ Hza]. congruence.
Qed.

Lemma GetRecentAttacks_tail_witness :
  (0 < 3)%Z /\
  exists before,
    valueOf (GetRecentAttacks 3) (stateAfter (AddAttack (sampleFinding 7)) (boot bareHost))
    = before ++ [sampleFinding 7].
Proof.
  split; [reflexivity |].
  exact (proj2 (proj2 (proj2 (GetRecentAttacks_tail 3 (boot bareHost))))
           (sampleFinding 7) eq_refl).
Defined.

(** ** The blocker: what a successful call records *)

Ltac success_cases :=
  split_cases; intros Herr; cbn [fst snd] in *; try discriminate.

Lemma UnblockIP_success (b : Blocker) (ip : string) (w : World) :
  errorOf (UnblockIP b ip) w = None ->
  blockedIPs (blockerAfter (UnblockIP b ip) w) = delete ip (blockedIPs b).
Proof.
  unfold errorOf, blockerAfter, UnblockIP. run_method.
  success_cases; reflexivity.
Qed.

Lemma BlockMAC_success (b : Blocker) (mac reason : string) (w : World) :
  errorOf (BlockMAC b mac reason) w = None ->
  blockedMACs b !! mac = None /\
  exists t, blockedMACs (blockerAfter (BlockMAC b mac reason) w)
            = <[mac := t]> (blockedMACs b).
Proof.
  unfold errorOf, blockerAfter, BlockMAC. run_method.
  destruct (blockedMACs b !! mac) as [t0 |] eqn:Hmac; cbn [fst snd];
    [discriminate |].
  success_cases; (split; [reflexivity | eexists; reflexivity]).
Qed.

Lemma UnblockMAC_success (b : Blocker) (mac : string) (w : World) :
  errorOf (UnblockMAC b mac) w = None ->
  blockedMACs (blockerAfter (UnblockMAC b mac) w) = delete mac (blockedMACs b).
Proof.
  unfold errorOf, blockerAfter, UnblockMAC. run_method.
  success_cases; reflexivity.
Qed.

Lemma UnblockBluetoothDevice_success (b : Blocker) (btAddr : string) (w : World) :
  errorOf (UnblockBluetoothDevice b btAddr) w = None ->
  blockedBTAddrs (blockerAfter (UnblockBluetoothDevice b btAddr) w)
  = delete btAddr (blockedBTAddrs b).
Proof.
  unfold errorOf, blockerAfter, UnblockBluetoothDevice. run_method.
  success_cases; reflexivity.
Qed.

(** X5. Block then unblock is a round trip: when a block call and the
    unblock call that follows it on the same address both return no error
    (on whatever hosts), the map of that category is back to what it was
    before the block, for IPs, MAC addresses and Bluetooth addresses. *)
Theorem block_unblock_round_trip :
  forall (b : Blocker) (addr reason : string) (w w' : World),
    (errorOf (BlockIP b addr reason) w = None ->
     errorOf (UnblockIP (blockerAfter (BlockIP b addr reason) w) addr) w' = None ->
     blockedIPs (blockerAfter (UnblockIP (blockerAfter (BlockIP b addr reason) w) addr) w')
     = blockedIPs b) /\
    (errorOf (BlockMAC b addr reason) w = None ->
     errorOf (UnblockMAC (blockerAfter (BlockMAC b addr reason) w) addr) w' = None ->
     blockedMACs (blockerAfter (UnblockMAC (blockerAfter (BlockMAC b addr reason) w) addr) w')
     = blockedMACs b) /\
    (errorOf (BlockBluetoothDevice b addr reason) w = None ->
     errorOf (UnblockBluetoothDevice
                (blockerAfter (BlockBluetoothDevice b addr reason) w) addr) w' = None ->
     blockedBTAddrs
       (blockerAfter (UnblockBluetoothDevice
                        (blockerAfter (BlockBluetoothDevice b addr reason) w) addr) w')
     = blockedBTAddrs b).
Proof.
  intros b addr reason w w'. split; [| split]; intros Hblock Hunblock.
  - destruct (BlockIP_success _ _ _ _ Hblock) as [Hfree [t Ht]].
    rewrite (UnblockIP_success _ _ _ Hunblock), Ht.
    apply delete_insert_id, Hfree.
  - destruct (BlockMAC_success _ _ _ _ Hblock) as [Hfree [t Ht]].
    rewrite (UnblockMAC_success _ _ _ Hunblock), Ht.
    apply delete_insert_id, Hfree.
  - destruct (BlockBluetoothDevice_success _ _ _ _ Hblock) as [Hfree [t Ht]].
    rewrite (UnblockBluetoothDevice_success _ _ _ Hunblock), Ht.
    apply delete_insert_id, Hfree.
Qed.

Lemma block_unblock_round_trip_witness :
  errorOf (BlockIP (NewBlocker false) "1.2.3.4" "x") (withUfw 7%Z) = None /\
  errorOf (UnblockIP (blockerAfter (BlockIP (NewBlocker false) "1.2.3.4" "x") (withUfw 7%Z))
             "1.2.3.4") (withUfw 8%Z) = None /\
  blockedIPs
    (blockerAfter
       (UnblockIP (blockerAfter (BlockIP (NewBlocker false) "1.2.3.4" "x") (withUfw 7%Z))
          "1.2.3.4") (withUfw 8%Z))
  = blockedIPs (NewBlocker false).
Proof.
  split; [reflexivity |]. split; [reflexivity |].
  exact (proj1 (block_unblock_round_trip (NewBlocker false) "1.2.3.4" "x"
                  (withUfw 7%Z) (withUfw 8%Z)) eq_refl eq_refl).
Defined.

(** ** The blocker: what a call leaves alone *)

Ltac frame_cases := split_cases; cbn [fst snd]; repeat split; try reflexivity.

Lemma lookup_insert_other (m : gmap string Time) (k other : string) (t : Time) :
  other <> k -> <[k := t]> m !! other = m !! other.
Proof. intros Hne. apply lookup_insert_ne. congruence. Qed.

Lemma lookup_delete_other (m : gmap string Time) (k other : string) :
  other <> k -> delete k m !! other = m !! other.
Proof. intros Hne. apply lookup_delete_ne. congruence. Qed.

(** X6. A call on one address of one category disturbs nothing else: the
    IP calls leave the MAC and Bluetooth maps, the auto-block flag and the
    entry of every other IP as they were, whatever the host answers and
    whether they succeed or fail; likewise the MAC calls and the Bluetooth
    calls. *)
Theorem blocker_calls_are_local :
  forall (b : Blocker) (addr reason other : string) (w : World),
    other <> addr ->
    (forall b', b' = blockerAfter (BlockIP b addr reason) w \/
                b' = blockerAfter (UnblockIP b addr) w ->
       blockedIPs b' !! other = blockedIPs b !! other /\
       blockedMACs b' = blockedMACs b /\ blockedBTAddrs b' = blockedBTAddrs b /\
       autoBlock b' = autoBlock b) /\
    (forall b', b' = blockerAfter (BlockMAC b addr reason) w \/
                b' = blockerAfter (UnblockMAC b addr) w ->
       blockedMACs b' !! other = blockedMACs b !! other /\
       blockedIPs b' = blockedIPs b /\ blockedBTAddrs b' = blockedBTAddrs b /\
       autoBlock b' = autoBlock b) /\
    (forall b', b' = blockerAfter (BlockBluetoothDevice b addr reason) w \/
                b' = blockerAfter (UnblockBluetoothDevice b addr) w ->
       blockedBTAddrs b' !! other = blockedBTAddrs b !! other /\
       blockedIPs b' = blockedIPs b /\ blockedMACs b' = blockedMACs b /\
       autoBlock b' = autoBlock b).
Proof.
  intros b addr reason other w Hne.
  split; [| split]; intros b' [-> | ->].
  - unfold blockerAfter, BlockIP. run_method. frame_cases;
      cbn [blockedIPs logTo setBlockedIPs]; apply lookup_insert_other, Hne.
  - unfold blockerAfter, UnblockIP. run_method. frame_cases;
      cbn [blockedIPs logTo setBlockedIPs]; apply lookup_delete_other, Hne.
  - unfold blockerAfter, BlockMAC. run_method. frame_cases;
      cbn [blockedMACs logTo setBlockedMACs]; apply lookup_insert_other, Hne.
  - unfold blockerAfter, UnblockMAC. run_method. frame_cases;
      cbn [blockedMACs logTo setBlockedMACs]; apply lookup_delete_other, Hne.
  - unfold blockerAfter, BlockBluetoothDevice. run_method. frame_cases;
      cbn [blockedBTAddrs logTo setBlockedBTAddrs]; apply lookup_insert_other, Hne.
  - unfold blockerAfter, UnblockBluetoothDevice. run_method. frame_cases;
      cbn [blockedBTAddrs logTo setBlockedBTAddrs]; apply lookup_delete_other, Hne.
Qed.

Lemma blocker_calls_are_local_witness :
  "5.6.7.8" <> "1.2.3.4" /\
  blockedIPs (blockerAfter (BlockIP (NewBlocker true) "1.2.3.4" "x") (withUfw 7%Z))
    !! "5.6.7.8"
  = blockedIPs (NewBlocker true) !! "5.6.7.8".
Proof.
  assert (Hne : "5.6.7.8" <> "1.2.3.4") by discriminate.
  split; [exact Hne |].
  exact (proj1 (proj1 (blocker_calls_are_local (NewBlocker true) "1.2.3.4" "x" "5.6.7.8"
                         (withUfw 7%Z) Hne)
                  _ (or_introl eq_refl))).
Defined.

(** ** The blocker: the commands a call starts *)

Lemma drop_own_length {A : Type} (l new : list A) : drop (length l) (l ++ new) = new.
Proof. rewrite drop_app_length. reflexivity. Qed.

Lemma available_Some {A : Type} (x : A) :
  bool_decide (is_Some (Some x)) = true.
Proof. reflexivity. Qed.

Lemma available_None {A : Type} : bool_decide (is_Some (@None A)) = false.
Proof. reflexivity. Qed.

(** Symbolic execution of a call: settle each lookup and each exit status
    as it comes up. *)
Ltac settle :=
  repeat (first
    [ progress (cbn [fst snd script ticks spawned negb found])
    | progress (rewrite ?available_Some, ?available_None)
    | match goal with
      | H : lookPath ?o ?f = _ |- context [lookPath ?o ?f] => rewrite H
      end
    | match goal with
      | H : exitErr ?r = _ |- context [exitErr ?r] => rewrite H
      end
    | match goal with
      | |- context [lookPath ?o ?f] => destruct (lookPath o f) eqn:?
      end
    | match goal with
      | |- context [exitErr ?r] => destruct (exitErr r) eqn:?
      end ]).

Ltac started_cases :=
  run_method; unfold isCommandAvailable; run_monad;
  settle;
  rewrite ?drop_own_length, <- ?app_assoc, ?drop_own_length;
  cbn [app].

Lemma drop_all {A : Type} (l : list A) : drop (length l) l = [].
Proof. apply drop_all. Qed.

(** X7. [BlockIP] and [UnblockIP] settle on one tool: on an address that is
    not in the state asked for, every command they start is a sudo call of
    the first tool found among ufw, firewall-cmd and iptables, at least one
    command is started when there is such a tool, and when there is none
    they start nothing and return the no-tool error.  On an address already
    in the state asked for they start no command at all. *)
Theorem firewall_calls_use_one_tool :
  forall (b : Blocker) (ip reason : string) (w : World),
    (blockedIPs b !! ip = None ->
     match firewallTool w with
     | Some tool =>
         startedBy (BlockIP b ip reason) w <> [] /\
         Forall (fun cmd => take 2 cmd = ["sudo"; tool]) (startedBy (BlockIP b ip reason) w)
     | None =>
         startedBy (BlockIP b ip reason) w = [] /\
         errorOf (BlockIP b ip reason) w
         = Some "no supported firewall tool found (ufw, firewalld, iptables)"
     end) /\
    (is_Some (blockedIPs b !! ip) ->
     match firewallTool w with
     | Some tool =>
         startedBy (UnblockIP b ip) w <> [] /\
         Forall (fun cmd => take 2 cmd = ["sudo"; tool]) (startedBy (UnblockIP b ip) w)
     | None =>
         startedBy (UnblockIP b ip) w = [] /\
         errorOf (UnblockIP b ip) w = Some "no supported firewall tool found"
     end) /\
    (is_Some (blockedIPs b !! ip) -> startedBy (BlockIP b ip reason) w = []) /\
    (blockedIPs b !! ip = None -> startedBy (UnblockIP b ip) w = []).
Proof.
  intros b ip reason w. split; [| split; [| split]].
  - intros Hfree. unfold firewallTool, startedBy, errorOf, BlockIP, found. run_method.
    rewrite Hfree.
    started_cases; repeat constructor; try discriminate; try reflexivity;
      apply drop_all.
  - intros [t Ht]. unfold firewallTool, startedBy, errorOf, UnblockIP, found. run_method.
    rewrite Ht.
    started_cases; repeat constructor; try discriminate; try reflexivity;
      apply drop_all.
  - intros Hin. unfold startedBy, stateAfter.
    rewrite BlockIP_conflict by exact Hin. apply drop_all.
  - intros Hnone. unfold startedBy, stateAfter.
    rewrite UnblockIP_conflict by exact Hnone. apply drop_all.
Qed.

Lemma firewall_calls_use_one_tool_witness :
  blockedIPs (NewBlocker false) !! "1.2.3.4" = None /\
  firewallTool withIptables = Some "iptables" /\
  startedBy (BlockIP (NewBlocker false) "1.2.3.4" "x") withIptables <> [] /\
  Forall (fun cmd => take 2 cmd = ["sudo"; "iptables"])
    (startedBy (BlockIP (NewBlocker false) "1.2.3.4" "x") withIptables).
Proof.
  split; [reflexivity |]. split; [reflexivity |].
  exact (proj1 (firewall_calls_use_one_tool (NewBlocker false) "1.2.3.4" "x" withIptables)
           eq_refl).
Defined.

(** X8. [BlockMAC] on an address that is not blocked tries ebtables and
    falls back to iptables: it starts at most the ebtables command followed
    by the iptables command; when ebtables is found and fails while iptables
    is found and succeeds, the call succeeds and records the address; and an
    error it returns is never the failure of ebtables: it is either the
    no-tool error or names a failure of the iptables command, which was then
    the last one started. *)
Theorem BlockMAC_falls_back :
  forall (b : Blocker) (mac reason : string) (w : World),
    blockedMACs b !! mac = None ->
    let started := startedBy (BlockMAC b mac reason) w in
    let ebt := ["sudo"; "ebtables"; "-A"; "INPUT"; "-s"; mac; "-j"; "DROP"] in
    let ipt := ["sudo"; "iptables"; "-I"; "INPUT"; "-m"; "mac"; "--mac-source"; mac;
                "-j"; "DROP"] in
    (started = [] \/ started = [ebt] \/ started = [ipt] \/ started = [ebt; ipt]) /\
    (is_Some (lookPath (script w (ticks w)) "ebtables") ->
     is_Some (exitErr (process (script w (S (ticks w))) ebt)) ->
     is_Some (lookPath (script w (S (S (ticks w)))) "iptables") ->
     exitErr (process (script w (S (S (S (ticks w))))) ipt) = None ->
     errorOf (BlockMAC b mac reason) w = None /\ started = [ebt; ipt] /\
     is_Some (blockedMACs (blockerAfter (BlockMAC b mac reason) w) !! mac)) /\
    (forall e, errorOf (BlockMAC b mac reason) w = Some e ->
       (e = "no supported tool for MAC blocking (ebtables or iptables)" /\
        ~ In ipt started) \/
       (exists cause, e = "failed to block MAC " +:+ mac +:+ ": " +:+ cause /\
                      last started = Some ipt)).
Proof.
  intros b mac reason w Hfree started ebt ipt. subst started ebt ipt.
  unfold startedBy, errorOf, blockerAfter, BlockMAC, exists_.
  split; [| split].
  - rewrite Hfree. started_cases; rewrite ?drop_all; auto 6.
  - intros [p Hp] [e He] [q Hq] Hok. rewrite Hfree.
    started_cases; try discriminate.
    split; [reflexivity |]. split; [reflexivity |].
    cbn [blockedMACs logTo setBlockedMACs]. rewrite lookup_insert_eq.
    eexists; reflexivity.
  - intros e. rewrite Hfree.
    started_cases; rewrite ?drop_all; intros Herr; try discriminate;
      inversion Herr; subst;
      first [ left; split; [reflexivity | cbn; intuition discriminate]
            | right; eexists; split; reflexivity ].
Qed.

Lemma BlockMAC_falls_back_witness :
  blockedMACs (NewBlocker false) !! "AA:BB:CC:DD:EE:01" = None /\
  errorOf (BlockMAC (NewBlocker false) "AA:BB:CC:DD:EE:01" "x") ebtablesBroken = None /\
  startedBy (BlockMAC (NewBlocker false) "AA:BB:CC:DD:EE:01" "x") ebtablesBroken
  = [["sudo"; "ebtables"; "-A"; "INPUT"; "-s"; "AA:BB:CC:DD:EE:01"; "-j"; "DROP"];
     ["sudo"; "iptables"; "-I"; "INPUT"; "-m"; "mac"; "--mac-source";
      "AA:BB:CC:DD:EE:01"; "-j"; "DROP"]].
Proof.
  split; [reflexivity |].
  pose proof (proj1 (proj2 (BlockMAC_falls_back (NewBlocker false) "AA:BB:CC:DD:EE:01" "x"
                              ebtablesBroken eq_refl))
                (ex_intro _ _ eq_refl) (ex_intro _ _ eq_refl) (ex_intro _ _ eq_refl) eq_refl)
    as [Hok [Hstarted _]].
  split; [exact Hok | exact Hstarted].
Defined.

(** X9. [BlockBluetoothDevice] on an address that is not blocked: without
    rfkill on the host it starts no command, returns no error and records
    the address; with rfkill it starts exactly the command that blocks the
    whole Bluetooth radio, the same for every address, returns that
    command's error as it is, and records the address exactly when there is
    none. *)
Theorem BlockBluetoothDevice_radio_switch :
  forall (b : Blocker) (btAddr reason : string) (w : World),
    blockedBTAddrs b !! btAddr = None ->
    let call := BlockBluetoothDevice b btAddr reason in
    match lookPath (script w (ticks w)) "rfkill" with
    | None =>
        startedBy call w = [] /\ errorOf call w = None /\
        is_Some (blockedBTAddrs (blockerAfter call w) !! btAddr)
    | Some _ =>
        startedBy call w = [["sudo"; "rfkill"; "block"; "bluetooth"]] /\
        errorOf call w
        = exitErr (process (script w (S (ticks w))) ["sudo"; "rfkill"; "block"; "bluetooth"]) /\
        (is_Some (blockedBTAddrs (blockerAfter call w) !! btAddr)
         <-> errorOf call w = None)
    end.
Proof.
  intros b btAddr reason w Hfree call. subst call.
  unfold startedBy, errorOf, blockerAfter, BlockBluetoothDevice, exists_.
  rewrite Hfree. started_cases.
  - split; [reflexivity |]. split; [reflexivity |].
    cbn [blockedBTAddrs logTo]. rewrite Hfree.
    split; [intros [x Hx]; discriminate | discriminate].
  - split; [reflexivity |]. split; [reflexivity |].
    cbn [blockedBTAddrs logTo setBlockedBTAddrs]. rewrite lookup_insert_eq.
    split; [reflexivity | eexists; reflexivity].
  - split; [apply drop_all |]. split; [reflexivity |].
    cbn [blockedBTAddrs logTo setBlockedBTAddrs]. rewrite lookup_insert_eq.
    eexists; reflexivity.
Qed.

Lemma BlockBluetoothDevice_radio_switch_witness :
  blockedBTAddrs (NewBlocker false) !! "AA:BB:CC:DD:EE:01" = None /\
  lookPath (script bareHost (ticks bareHost)) "rfkill" = None /\
  startedBy (BlockBluetoothDevice (NewBlocker false) "AA:BB:CC:DD:EE:01" "x") bareHost = [] /\
  errorOf (BlockBluetoothDevice (NewBlocker false) "AA:BB:CC:DD:EE:01" "x") bareHost = None /\
  is_Some (blockedBTAddrs
             (blockerAfter (BlockBluetoothDevice (NewBlocker false) "AA:BB:CC:DD:EE:01" "x")
                bareHost) !! "AA:BB:CC:DD:EE:01").
Proof.
  split; [reflexivity |]. split; [reflexivity |].
  exact (BlockBluetoothDevice_radio_switch (NewBlocker false) "AA:BB:CC:DD:EE:01" "x"
           bareHost eq_refl).
Defined.

(** X10. [DeauthWiFiClient] never reconfigures an interface: all it starts
    is iwconfig without arguments and then, at most once, the aireplay-ng
    burst of 10 deauthentication frames for the given client and access
    point on the interface it found; without aireplay-ng on the host it
    starts nothing; and it returns no error only after that burst was
    started. *)
Theorem DeauthWiFiClient_commands :
  forall (b : Blocker) (clientMAC apMAC reason : string) (w : World),
    let call := DeauthWiFiClient b clientMAC apMAC reason in
    let burst := fun iface =>
      ["sudo"; "aireplay-ng"; "--deauth"; "10"; "-a"; apMAC; "-c"; clientMAC; iface] in
    (startedBy call w = [] \/ startedBy call w = [["iwconfig"]] \/
     exists iface, startedBy call w = [["iwconfig"]; burst iface]) /\
    (lookPath (script w (ticks w)) "aireplay-ng" = None ->
     startedBy call w = [] /\
     errorOf call w = Some "aireplay-ng not available for WiFi deauthentication") /\
    (errorOf call w = None ->
     exists iface, startedBy call w = [["iwconfig"]; burst iface]).
Proof.
  intros b clientMAC apMAC reason w call burst. subst call burst.
  unfold startedBy, errorOf, DeauthWiFiClient.
  split; [| split].
  - started_cases; rewrite ?drop_all; auto.
    all: destruct (find _ _); settle;
      rewrite ?drop_own_length, <- ?app_assoc, ?drop_own_length; cbn [app]; eauto.
  - intros Hmissing. started_cases; try discriminate.
    split; [apply drop_all | reflexivity].
  - started_cases; try discriminate.
    all: destruct (find _ _); settle;
      rewrite ?drop_own_length, <- ?app_assoc, ?drop_own_length; cbn [app];
      intros Herr; try discriminate; eauto.
Qed.

Lemma DeauthWiFiClient_commands_witness :
  errorOf (DeauthWiFiClient (NewBlocker false) "AA:AA" "BB:BB" "x") (printing iwconfigMonitor)
  = None /\
  exists iface,
    startedBy (DeauthWiFiClient (NewBlocker false) "AA:AA" "BB:BB" "x")
      (printing iwconfigMonitor)
    = [["iwconfig"];
       ["sudo"; "aireplay-ng"; "--deauth"; "10"; "-a"; "BB:BB"; "-c"; "AA:AA"; iface]].
Proof.
  split; [reflexivity |].
  exact (proj2 (proj2 (DeauthWiFiClient_commands (NewBlocker false) "AA:AA" "BB:BB" "x"
                         (printing iwconfigMonitor))) eq_refl).
Defined.
